(** * A shallow embedding of [pipe_in_json.py]

    The script reads JSON records, pushes each one through three processors
    (currency conversion, [linkid] validation, splitting by [type]) and closes
    the processors when the input is exhausted.

    Layout of this file:
    - [Py]: the fragment of the Python runtime the script relies on
      (exceptions, JSON values, truthiness, [dict.get], subscripting, [*],
      [str.lower], [str.replace], [str.strip], [int(s, 16)]);
    - [Uuid]: the constructor [uuid.UUID(hex)] of the standard library;
    - [Jsonlines]: the writer objects returned by [jsonlines.open(_, mode='a')],
      and the environment that decides whether a sink can be opened and a
      line appended;
    - [Key]: the keys of the dictionary that caches the writers;
    - the classes of the script, one module per class and one definition per
      method, and the main loop in [Main];
    - the vocabulary of the statements, and the theorems, stage by stage.

    Strings are sequences of characters with code points below 256.  What
    the file system and the serialiser answer when a sink is opened or a line
    is appended is not computed: it enters as an environment
    ([Jsonlines.Env]), and a statement holds in every environment unless it
    names one.  Memory is taken to be unbounded: an allocation fails only
    where the size cannot be represented.  The two record sources are
    outside the model: the loop is given the list of records its generator
    yields, each of them a JSON object. *)

From Stdlib Require Import ZArith Ascii String List Bool Lia.
From Stdlib Require Import Floats.SpecFloat.
From stdpp Require Import gmap strings list fin_maps.

Local Open Scope string_scope.
Local Open Scope Z_scope.
Local Open Scope list_scope.

(* ===================================================================== *)
(** * The Python runtime *)
(* ===================================================================== *)

Module Py.

(** The exception classes that can surface in the script. *)
Inductive exn : Type :=
  | StopIteration
  | ValueError
  | TypeError
  | AttributeError
  | KeyError
  | OverflowError
  | MemoryError
  | RuntimeError
  | OSError.

(** Outcome of evaluating an expression or a statement. *)
Inductive result (A : Type) : Type :=
  | Ok (a : A)
  | Raise (e : exn).
Arguments Ok {A} a.
Arguments Raise {A} e.

Definition bind {A B : Type} (r : result A) (k : A -> result B) : result B :=
  match r with
  | Ok a => k a
  | Raise e => Raise e
  end.

Definition is_ok {A : Type} (r : result A) : bool :=
  match r with Ok _ => true | Raise _ => false end.

(** [KeyError] and [IndexError] are the subclasses of [LookupError]; only
    the former occurs here. *)
Definition is_LookupError (e : exn) : bool :=
  match e with KeyError => true | _ => false end.

(** Python floats are IEEE 754 binary64 numbers. *)
Definition prec : Z := 53.
Definition emax : Z := 1024.
Definition float_mul : spec_float -> spec_float -> spec_float := SFmul prec emax.

(** What [json.loads] produces: [None], booleans, integers of any size,
    floats, strings, lists and dictionaries with string keys. *)
#[warnings="-register-all"] Inductive value : Type :=
  | VNone
  | VBool (b : bool)
  | VInt (z : Z)
  | VFloat (f : spec_float)
  | VStr (s : string)
  | VList (l : list value)
  | VDict (d : gmap string value).

(** [bool(v)]. *)
Definition truthy (v : value) : bool :=
  match v with
  | VNone => false
  | VBool b => b
  | VInt z => negb (z =? 0)
  | VFloat (S754_zero _) => false
  | VFloat _ => true
  | VStr EmptyString => false
  | VStr _ => true
  | VList nil => false
  | VList _ => true
  | VDict d => negb (bool_decide (d = ∅))
  end.

(** [d.get(k, None)]. *)
Definition get (d : gmap string value) (k : string) : value :=
  match d !! k with
  | Some v => v
  | None => VNone
  end.

(** [d[k]] for the string literal [k]. *)
Definition getitem (d : gmap string value) (k : string) : result value :=
  match d !! k with
  | Some v => Ok v
  | None => Raise KeyError
  end.

(** [d[k]] for a key [k] computed at run time, in a dictionary that came
    out of [json.loads] (all keys are strings): lists and dictionaries are
    unhashable, every other non-string compares unequal to every key. *)
Definition subscript (d : gmap string value) (k : value) : result value :=
  match k with
  | VList _ | VDict _ => Raise TypeError
  | VStr s => getitem d s
  | VNone | VBool _ | VInt _ | VFloat _ => Raise KeyError
  end.

(** [v != s] for a string [s]. *)
Definition ne_str (v : value) (s : string) : bool :=
  match v with
  | VStr s' => negb (String.eqb s' s)
  | _ => true
  end.

(** [float(z)]: correctly rounded, [OverflowError] beyond the largest
    finite float. *)
Definition int_to_float (z : Z) : result spec_float :=
  match binary_normalize prec emax z 0 false with
  | S754_infinity _ => Raise OverflowError
  | f => Ok f
  end.

Definition PY_SSIZE_T_MAX : Z := 2 ^ 63 - 1.

(** The repeat count of [seq * n] must fit a [Py_ssize_t]. *)
Definition as_ssize_t (n : Z) : result Z :=
  if (- 2 ^ 63 <=? n) && (n <=? PY_SSIZE_T_MAX) then Ok n else Raise OverflowError.

Fixpoint string_repeat (n : nat) (s : string) : string :=
  match n with
  | O => EmptyString
  | S n' => String.append s (string_repeat n' s)
  end.

Fixpoint list_repeat {A : Type} (n : nat) (l : list A) : list A :=
  match n with
  | O => nil
  | S n' => l ++ list_repeat n' l
  end.

Definition str_mul (s : string) (n : Z) : result value :=
  bind (as_ssize_t n) (fun count =>
    if count <? 1 then Ok (VStr EmptyString)
    else if Z.of_nat (String.length s) >? PY_SSIZE_T_MAX / count
    then Raise OverflowError
    else Ok (VStr (string_repeat (Z.to_nat count) s))).

Definition list_mul (l : list value) (n : Z) : result value :=
  bind (as_ssize_t n) (fun count =>
    if (Z.of_nat (List.length l) =? 0) || (count <=? 0) then Ok (VList nil)
    else if Z.of_nat (List.length l) >? PY_SSIZE_T_MAX / count
    then Raise MemoryError
    else Ok (VList (list_repeat (Z.to_nat count) l))).

(** Integers and booleans, the latter being the integers 0 and 1. *)
Definition as_int (v : value) : option Z :=
  match v with
  | VInt z => Some z
  | VBool b => Some (if b then 1 else 0)
  | _ => None
  end.

(** [a * b]. *)
Definition mul (a b : value) : result value :=
  match as_int a, as_int b with
  | Some x, Some y => Ok (VInt (x * y))
  | Some x, None =>
      match b with
      | VFloat g => bind (int_to_float x) (fun f => Ok (VFloat (float_mul f g)))
      | VStr s => str_mul s x
      | VList l => list_mul l x
      | _ => Raise TypeError
      end
  | None, Some y =>
      match a with
      | VFloat f => bind (int_to_float y) (fun g => Ok (VFloat (float_mul f g)))
      | VStr s => str_mul s y
      | VList l => list_mul l y
      | _ => Raise TypeError
      end
  | None, None =>
      match a, b with
      | VFloat f, VFloat g => Ok (VFloat (float_mul f g))
      | _, _ => Raise TypeError
      end
  end.

(** ** Strings

    A character is a code point below 256. *)

(** The upper-case letters below code point 256: A to Z, and the accented
    capitals except the multiplication sign. *)
Definition is_upper (c : ascii) : bool :=
  let n := N_of_ascii c in
  (((65 <=? n) && (n <=? 90)) || ((192 <=? n) && (n <=? 214))
   || ((216 <=? n) && (n <=? 222)))%N.

Definition lower_char (c : ascii) : ascii :=
  if is_upper c then ascii_of_N (N_of_ascii c + 32) else c.

(** [s.lower()]. *)
Fixpoint lower (s : string) : string :=
  match s with
  | EmptyString => EmptyString
  | String c s' => String (lower_char c) (lower s')
  end.

(** [s.replace(old, '')] for a non-empty [old]: occurrences are removed
    from left to right; [skip] counts the characters of the occurrence
    under the cursor that are still to be dropped. *)
Fixpoint remove_from (old : string) (skip : nat) (s : string) : string :=
  match s with
  | EmptyString => EmptyString
  | String c s' =>
      match skip with
      | S k => remove_from old k s'
      | O =>
          if String.prefix old s
          then remove_from old (Nat.pred (String.length old)) s'
          else String c (remove_from old O s')
      end
  end.

Definition remove (old s : string) : string := remove_from old O s.

Fixpoint mem_char (c : ascii) (chars : string) : bool :=
  match chars with
  | EmptyString => false
  | String d chars' => Ascii.eqb c d || mem_char c chars'
  end.

Fixpoint lstrip (chars s : string) : string :=
  match s with
  | EmptyString => EmptyString
  | String c s' => if mem_char c chars then lstrip chars s' else s
  end.

Fixpoint rstrip (chars s : string) : string :=
  match s with
  | EmptyString => EmptyString
  | String c s' =>
      match rstrip chars s' with
      | EmptyString => if mem_char c chars then EmptyString else String c EmptyString
      | r => String c r
      end
  end.

(** [s.strip(chars)]. *)
Definition strip (chars s : string) : string := rstrip chars (lstrip chars s).

(** ** [int(s, base)] for a power-of-two base, after [PyLong_FromUnicodeObject]
       and [PyLong_FromString] *)

Definition is_ascii_char (c : ascii) : bool := (N_of_ascii c <? 128)%N.

Fixpoint is_ascii (s : string) : bool :=
  match s with
  | EmptyString => true
  | String c s' => is_ascii_char c && is_ascii s'
  end.

(** [Py_UNICODE_ISSPACE] on the code points from 127 to 255: next line and
    no-break space. *)
Definition Py_UNICODE_ISSPACE (c : ascii) : bool :=
  let n := N_of_ascii c in ((n =? 133) || (n =? 160))%N.

(** One step of [_PyUnicode_TransformDecimalAndSpaceToASCII]: code points
    below 127 stay, spaces become a blank, and since no code point from 127
    to 255 is a decimal digit, every other one becomes a question mark. *)
Definition to_ascii_char (c : ascii) : ascii :=
  if (N_of_ascii c <? 127)%N then c
  else if Py_UNICODE_ISSPACE c then " "%char
  else "?"%char.

(** [_PyUnicode_TransformDecimalAndSpaceToASCII]: a string that is ASCII is
    returned as it is.  The original stops at the first question mark it
    writes; what follows a question mark never matters to the parser below,
    which rejects the string there. *)
Fixpoint transform (s : string) : string :=
  match s with
  | EmptyString => EmptyString
  | String c s' => String (to_ascii_char c) (transform s')
  end.

Definition decimal_and_space_to_ascii (s : string) : string :=
  if is_ascii s then s else transform s.

Definition Py_ISSPACE (c : ascii) : bool :=
  let n := N_of_ascii c in
  (((9 <=? n) && (n <=? 13)) || (n =? 32))%N.

(** The table [_PyLong_DigitValue]: 37 marks a character that is no digit
    in any base. *)
Definition digit_value (c : ascii) : Z :=
  let n := Z.of_N (N_of_ascii c) in
  if (48 <=? n) && (n <=? 57) then n - 48
  else if (97 <=? n) && (n <=? 122) then n - 87
  else if (65 <=? n) && (n <=? 90) then n - 55
  else 37.

Fixpoint skip_space (s : string) : string :=
  match s with
  | String c s' => if Py_ISSPACE c then skip_space s' else s
  | EmptyString => s
  end.

Record scan : Type := MkScan {
  scan_rest : string;      (* what follows the digits *)
  scan_prev_us : bool;     (* the last character read was an underscore *)
  scan_digits : nat;       (* how many digits were read *)
  scan_value : Z           (* their value *)
}.

(** The digit loop: digits and single underscores between them.  [None]
    is the syntax error of a doubled underscore. *)
Fixpoint scan_digits_from (base : Z) (s : string) (prev_us : bool)
    (digits : nat) (acc : Z) : option scan :=
  match s with
  | EmptyString => Some (MkScan s prev_us digits acc)
  | String c s' =>
      if Ascii.eqb c "_"
      then if prev_us then None else scan_digits_from base s' true digits acc
      else if digit_value c <? base
      then scan_digits_from base s' false (S digits) (acc * base + digit_value c)
      else Some (MkScan s prev_us digits acc)
  end.

Definition strip_sign (s : string) : Z * string :=
  match s with
  | String "+" s' => (1, s')
  | String "-" s' => (-1, s')
  | _ => (1, s)
  end.

(** The optional [0x] prefix, after which one underscore is allowed. *)
Definition strip_hex_prefix (s : string) : string :=
  match s with
  | String "0" (String ("x" | "X") s') =>
      match s' with
      | String "_" s'' => s''
      | _ => s'
      end
  | _ => s
  end.

(** [PyLong_FromString(s, &end, 16)] followed by the check that [end] is the
    end of the buffer. *)
Definition PyLong_FromString16 (s : string) : result Z :=
  let '(sign, s1) := strip_sign (skip_space s) in
  let s2 := strip_hex_prefix s1 in
  match s2 with
  | String "_" _ => Raise ValueError
  | _ =>
      match scan_digits_from 16 s2 false O 0 with
      | None => Raise ValueError
      | Some sc =>
          if scan_prev_us sc then Raise ValueError
          else if Nat.eqb (scan_digits sc) O then Raise ValueError
          else
            match skip_space (scan_rest sc) with
            | EmptyString => Ok (sign * scan_value sc)
            | _ => Raise ValueError
            end
      end
  end.

(** [int(s, 16)]. *)
Definition int16 (s : string) : result Z :=
  PyLong_FromString16 (decimal_and_space_to_ascii s).

End Py.

Import Py.

(* ===================================================================== *)
(** * [uuid.UUID] *)
(* ===================================================================== *)

Module Uuid.

(** A UUID object; [int] is its 128-bit value. *)
Record UUID : Type := MkUUID { int : Z }.

(** [uuid.UUID(hex)] for a string [hex]. *)
Definition of_hex (hex : string) : result UUID :=
  let hex := remove "uuid:" (remove "urn:" hex) in
  let hex := remove "-" (strip "{}" hex) in
  if negb (Nat.eqb (String.length hex) 32) then Raise ValueError
  else
    bind (int16 hex) (fun int =>
      if negb ((0 <=? int) && (int <? 2 ^ 128)) then Raise ValueError
      else Ok (MkUUID int)).

(** [uuid.UUID(x)] with [x] as the only argument: [None] counts as no
    argument at all, and any other non-string has no [replace] method. *)
Definition new (x : value) : result UUID :=
  match x with
  | VNone => Raise TypeError
  | VStr hex => of_hex hex
  | VBool _ | VInt _ | VFloat _ | VList _ | VDict _ => Raise AttributeError
  end.

End Uuid.

(* ===================================================================== *)
(** * [jsonlines] writers *)
(* ===================================================================== *)

Module Jsonlines.

(** Where a writer appends: a path given literally, or the path expression
    [template.format(type=arg)], which is kept symbolic. *)
Inductive path : Type :=
  | Literal (p : string)
  | Format (template : string) (arg : value).

(** A writer opened with [mode='a']: the lines it has appended so far and
    whether it has been closed. *)
Record Writer : Type := MkWriter {
  target : path;
  written : list (gmap string value);
  closed : bool
}.

(** What lies outside the script.  [opening p] is how evaluating the path
    expression [p] and opening the file for appending ends: [str.format]
    raises [KeyError] for a template with a named placeholder other than
    [type], [open] raises [ValueError] for a path with a NUL character and
    an [OSError] for a path the file system refuses.  [appending p obj] is
    how serialising [obj] and appending the line to the file at [p] ends:
    the serialiser raises [ValueError] for an integer with more digits than
    the interpreter converts, the file system an [OSError].  The answers are
    taken to depend on the path and the object only, not on the moment of
    the call. *)
Record Env : Type := MkEnv {
  opening : path -> result unit;
  appending : path -> gmap string value -> result unit
}.

(** [jsonlines.open(p, mode='a')]. *)
Definition open (env : Env) (p : path) : result Writer :=
  match opening env p with
  | Ok _ => Ok {| target := p; written := nil; closed := false |}
  | Raise e => Raise e
  end.

(** [w.write(obj)]: a closed writer refuses; otherwise the object is
    serialised at once, so the line is the dictionary as it is at the time of
    the call.  [written] lists the lines appended in full. *)
Definition write (env : Env) (w : Writer) (obj : gmap string value)
    : Writer * result unit :=
  if closed w then (w, Raise RuntimeError)
  else
    match appending env (target w) obj with
    | Ok _ => ({| target := target w; written := written w ++ [obj]; closed := false |}, Ok tt)
    | Raise e => (w, Raise e)
    end.

(** [w.close()]; closing a closed writer does nothing. *)
Definition close (w : Writer) : Writer :=
  if closed w then w
  else {| target := target w; written := written w; closed := true |}.

End Jsonlines.

(* ===================================================================== *)
(** * Keys of the writer cache *)
(* ===================================================================== *)

(** [_cached_writers] is a Python dictionary keyed by the [type] values of
  the records.  Python identifies keys that compare equal: [True], [1] and
  [1.0] are one key.  [Key.t] holds one representative per class of equal
  hashable JSON values; lists and dictionaries are unhashable.  [NaN] is
  equal to nothing, but [json.loads] returns the one object
  [json.decoder.NaN] for it, and a dictionary finds a key that is the very
  object it is asked for: [NaN] is one key as well. *)
Module Key.

Inductive t : Type :=
  | KNone
  | KStr (s : string)
  | KInt (z : Z)
  | KFrac (s : bool) (m : positive) (e : Z)   (* a float that is no integer *)
  | KInf (s : bool)
  | KNaN.

(** Mantissa without its trailing zero bits. *)
Fixpoint odd_part (m : positive) (e : Z) : positive * Z :=
  match m with
  | xO p => odd_part p (e + 1)
  | _ => (m, e)
  end.

Definition of_float (f : spec_float) : t :=
  match f with
  | S754_zero _ => KInt 0
  | S754_infinity s => KInf s
  | S754_nan => KNaN
  | S754_finite s m e =>
      let '(m', e') := odd_part m e in
      if 0 <=? e' then KInt (cond_Zopp s (Zpos m' * 2 ^ e'))
      else KFrac s m' e'
  end.

(** Hashing a value: the key it denotes, or [TypeError]. *)
Definition hash (v : value) : result t :=
  match v with
  | VNone => Ok KNone
  | VBool b => Ok (KInt (if b then 1 else 0))
  | VInt z => Ok (KInt z)
  | VFloat f => Ok (of_float f)
  | VStr s => Ok (KStr s)
  | VList _ | VDict _ => Raise TypeError
  end.

Definition to_sum (k : t) : unit + string + Z + (bool * positive * Z) + bool + unit :=
  match k with
  | KNone => inl (inl (inl (inl (inl tt))))
  | KStr s => inl (inl (inl (inl (inr s))))
  | KInt z => inl (inl (inl (inr z)))
  | KFrac s m e => inl (inl (inr (s, m, e)))
  | KInf s => inl (inr s)
  | KNaN => inr tt
  end.

Definition of_sum (x : unit + string + Z + (bool * positive * Z) + bool + unit) : t :=
  match x with
  | inl (inl (inl (inl (inl _)))) => KNone
  | inl (inl (inl (inl (inr s)))) => KStr s
  | inl (inl (inl (inr z))) => KInt z
  | inl (inl (inr (s, m, e))) => KFrac s m e
  | inl (inr s) => KInf s
  | inr _ => KNaN
  end.

#[global] Instance eq_dec : EqDecision t.
Proof. solve_decision. Defined.

#[global] Instance countable : Countable t.
Proof.
  apply (inj_countable' to_sum of_sum).
  intros []; reflexivity.
Defined.

End Key.

(* ===================================================================== *)
(** * The processors *)
(* ===================================================================== *)

Module Processor.

(** What [is_valid_uuid] returns: the parsed UUID or [False]. *)
Inductive uuid_or_false : Type :=
  | Parsed (u : Uuid.UUID)
  | PyFalse.

(** Instances of [uuid.UUID] define neither [__bool__] nor [__len__]. *)
Definition truthy (r : uuid_or_false) : bool :=
  match r with Parsed _ => true | PyFalse => false end.

(** [try: return uuid.UUID(uuid_to_test)  except ValueError: return False] *)
Definition is_valid_uuid (uuid_to_test : value) : result uuid_or_false :=
  match Uuid.new uuid_to_test with
  | Ok u => Ok (Parsed u)
  | Raise ValueError => Ok PyFalse
  | Raise e => Raise e
  end.

End Processor.

Module ExchangeProcessor.

Record t : Type := Mk {
  ex_rates : gmap string value;
  default_currency : string;
  currency_key : string
}.

(** [__init__(currency)]; [rates] is what [get_rates()] downloaded. *)
Definition init (rates : gmap string value) (currency : string) : t :=
  {| ex_rates := rates;
     default_currency := currency;
     currency_key := String.append "conv" (String.append (lower currency) "value") |}.

(** The right-hand side [self.ex_rates[data['convvalueunit']]]. *)
Definition rate (self : t) (data : gmap string value) : result value :=
  bind (getitem data "convvalueunit") (subscript (ex_rates self)).

(** [process(data)]: the dictionary after the call and how the call ended. *)
Definition process (self : t) (data : gmap string value)
    : gmap string value * result unit :=
  if Py.truthy (get data "convvalue")
     && ne_str (get data "convvalueunit") (default_currency self)
  then
    match bind (rate self data) (fun r =>
            bind (getitem data "convvalue") (fun v => mul r v)) with
    | Ok product => (<[currency_key self := product]> data, Ok tt)
    | Raise e => (data, Raise e)
    end
  else (data, Ok tt).

Definition close (self : t) : t := self.

End ExchangeProcessor.

Module ValidationProcessor.

Record t : Type := Mk {
  errors_output : string;
  errors_logger : Jsonlines.Writer
}.

(** [__init__(errors_output)]: there is no processor when the sink cannot
    be opened. *)
Definition init (env : Jsonlines.Env) (errors_output : string) : result t :=
  match Jsonlines.open env (Jsonlines.Literal errors_output) with
  | Ok w => Ok {| errors_output := errors_output; errors_logger := w |}
  | Raise e => Raise e
  end.

(** [self.errors_logger.write(data)]. *)
Definition log (env : Jsonlines.Env) (self : t) (data : gmap string value)
    : t * result unit :=
  let '(w, r) := Jsonlines.write env (errors_logger self) data in
  ({| errors_output := errors_output self; errors_logger := w |}, r).

(** [process(data)]: the processor after the call and how the call ended;
    no statement of the method assigns to [data]. *)
Definition process (env : Jsonlines.Env) (self : t) (data : gmap string value)
    : t * result unit :=
  if negb (Py.truthy (get data "linkid")) then log env self data
  else
    match bind (getitem data "linkid") Processor.is_valid_uuid with
    | Raise e => (self, Raise e)
    | Ok u => if negb (Processor.truthy u) then log env self data else (self, Ok tt)
    end.

Definition close (self : t) : t :=
  {| errors_output := errors_output self;
     errors_logger := Jsonlines.close (errors_logger self) |}.

End ValidationProcessor.

Module SplittingProcessor.

Record t : Type := Mk {
  output_path : string;
  _cached_writers : gmap Key.t Jsonlines.Writer;
  strict_uuid : bool
}.

Definition init (output_path : string) (strict_uuid : bool) : t :=
  {| output_path := output_path; _cached_writers := ∅; strict_uuid := strict_uuid |}.

Definition set_writers (self : t) (ws : gmap Key.t Jsonlines.Writer) : t :=
  {| output_path := output_path self; _cached_writers := ws;
     strict_uuid := strict_uuid self |}.

(** [get_writer(writer_type)]: the returned writer is an object held by
    the cache, so it is handed back together with the key it sits under.
    When the path cannot be formatted or the file cannot be opened, the
    cache is left as it was. *)
Definition get_writer (env : Jsonlines.Env) (self : t) (writer_type : value)
    : t * result (Key.t * Jsonlines.Writer) :=
  match Key.hash writer_type with
  | Raise e => (self, Raise e)
  | Ok k =>
      match _cached_writers self !! k with
      | Some w => (self, Ok (k, w))
      | None =>
          match Jsonlines.open env (Jsonlines.Format (output_path self) writer_type) with
          | Raise e => (self, Raise e)
          | Ok writer =>
              (set_writers self (<[k := writer]> (_cached_writers self)), Ok (k, writer))
          end
      end
  end.

(** The loop of [close]: [self._cached_writers[writer].close()] for each
    key.  The writers are independent objects, so the order of the keys
    does not show in the result. *)
Fixpoint close_keys (keys : list Key.t) (ws : gmap Key.t Jsonlines.Writer)
    : gmap Key.t Jsonlines.Writer * result unit :=
  match keys with
  | nil => (ws, Ok tt)
  | k :: keys' =>
      match ws !! k with
      | Some w => close_keys keys' (<[k := Jsonlines.close w]> ws)
      | None => (ws, Raise KeyError)
      end
  end.

Definition close (self : t) : t * result unit :=
  let '(ws, r) := close_keys (map fst (map_to_list (_cached_writers self)))
                    (_cached_writers self) in
  (set_writers self ws, r).

(** The condition
    [not self.strict_uuid or data.get('linkid') and self.is_valid_uuid(data['linkid'])]. *)
Definition accepts (self : t) (data : gmap string value) : result bool :=
  if negb (strict_uuid self) then Ok true
  else if negb (Py.truthy (get data "linkid")) then Ok false
  else
    bind (bind (getitem data "linkid") Processor.is_valid_uuid)
         (fun u => Ok (Processor.truthy u)).

Definition process (env : Jsonlines.Env) (self : t) (data : gmap string value)
    : t * result unit :=
  if Py.truthy (get data "type") then
    match accepts self data with
    | Raise e => (self, Raise e)
    | Ok false => (self, Ok tt)
    | Ok true =>
        match getitem data "type" with
        | Raise e => (self, Raise e)
        | Ok ty =>
            match get_writer env self ty with
            | (self', Raise e) => (self', Raise e)
            | (self', Ok (k, w)) =>
                let '(w', r) := Jsonlines.write env w data in
                (set_writers self' (<[k := w']> (_cached_writers self')), r)
            end
        end
    end
  else (self, Ok tt).

End SplittingProcessor.

(* ===================================================================== *)
(** * The main loop *)
(* ===================================================================== *)

Module Main.

(** The three objects the script creates. *)
Record processors : Type := MkProcessors {
  exchanger : ExchangeProcessor.t;
  validator : ValidationProcessor.t;
  splitter : SplittingProcessor.t
}.

(** An entry of the list [pipelines]. *)
Inductive pipe : Type := Exchanger | Validator | Splitter.

(** [pipelines = [exchanger, validator, splitter]] *)
Definition pipelines : list pipe := [Exchanger; Validator; Splitter].

(** The processors as the script builds them, with default arguments;
    [rates] is what [get_rates()] downloaded. *)
Definition create (env : Jsonlines.Env) (rates : gmap string value)
    : result processors :=
  let exchanger := ExchangeProcessor.init rates "USD" in
  bind (ValidationProcessor.init env "./deadletters.json") (fun validator =>
    let splitter := SplittingProcessor.init "./{type}.json" true in
    Ok {| exchanger := exchanger; validator := validator; splitter := splitter |}).

(** [pipe.process(raw_data)]: every processor receives the same
    dictionary object, so what one writes into it the next ones see. *)
Definition process (env : Jsonlines.Env) (p : pipe) (ps : processors)
    (data : gmap string value) : processors * gmap string value * result unit :=
  match p with
  | Exchanger =>
      let '(data', r) := ExchangeProcessor.process (exchanger ps) data in
      (ps, data', r)
  | Validator =>
      let '(v, r) := ValidationProcessor.process env (validator ps) data in
      ({| exchanger := exchanger ps; validator := v; splitter := splitter ps |}, data, r)
  | Splitter =>
      let '(s, r) := SplittingProcessor.process env (splitter ps) data in
      ({| exchanger := exchanger ps; validator := validator ps; splitter := s |}, data, r)
  end.

(** [pipe.close()] *)
Definition close (p : pipe) (ps : processors) : processors * result unit :=
  match p with
  | Exchanger =>
      ({| exchanger := ExchangeProcessor.close (exchanger ps);
          validator := validator ps; splitter := splitter ps |}, Ok tt)
  | Validator =>
      ({| exchanger := exchanger ps;
          validator := ValidationProcessor.close (validator ps);
          splitter := splitter ps |}, Ok tt)
  | Splitter =>
      let '(s, r) := SplittingProcessor.close (splitter ps) in
      ({| exchanger := exchanger ps; validator := validator ps; splitter := s |}, r)
  end.

(** [for pipe in pipelines: pipe.process(raw_data)] *)
Fixpoint process_each (env : Jsonlines.Env) (pipes : list pipe) (ps : processors)
    (data : gmap string value) : processors * gmap string value * result unit :=
  match pipes with
  | nil => (ps, data, Ok tt)
  | p :: pipes' =>
      match process env p ps data with
      | (ps', data', Ok _) => process_each env pipes' ps' data'
      | (ps', data', Raise e) => (ps', data', Raise e)
      end
  end.

(** [for pipe in pipelines: pipe.close()] *)
Fixpoint close_each (pipes : list pipe) (ps : processors) : processors * result unit :=
  match pipes with
  | nil => (ps, Ok tt)
  | p :: pipes' =>
      match close p ps with
      | (ps', Ok _) => close_each pipes' ps'
      | (ps', Raise e) => (ps', Raise e)
      end
  end.

(** The [while True] loop.  [stream] holds the records the generator has
    still to yield; [__next__] on an exhausted generator raises
    [StopIteration].  The [try] block covers the calls to [process] as
    well, so a [StopIteration] out of a processor would end the loop in
    the same way.  The result is the number the final [print] reports. *)
Fixpoint loop (env : Jsonlines.Env) (pipes : list pipe)
    (stream : list (gmap string value)) (ps : processors) (rows_counter : Z)
    : processors * result Z :=
  match stream with
  | nil =>
      let '(ps', r) := close_each pipes ps in
      (ps', bind r (fun _ => Ok rows_counter))
  | raw_data :: stream' =>
      match process_each env pipes ps raw_data with
      | (ps', _, Ok _) => loop env pipes stream' ps' (rows_counter + 1)
      | (ps', _, Raise StopIteration) =>
          let '(ps'', r) := close_each pipes ps' in
          (ps'', bind r (fun _ => Ok rows_counter))
      | (ps', _, Raise e) => (ps', Raise e)
      end
  end.

Definition run (env : Jsonlines.Env) (ps : processors)
    (stream : list (gmap string value)) : processors * result Z :=
  loop env pipelines stream ps 0.

(** ** The same loop with a log of the method calls it makes *)

Inductive call : Type :=
  | Process (p : pipe) (data : gmap string value)   (* [data] as passed *)
  | Close (p : pipe).

Fixpoint process_each_log (env : Jsonlines.Env) (pipes : list pipe)
    (ps : processors) (data : gmap string value) (log : list call)
    : processors * gmap string value * result unit * list call :=
  match pipes with
  | nil => (ps, data, Ok tt, log)
  | p :: pipes' =>
      match process env p ps data with
      | (ps', data', Ok _) =>
          process_each_log env pipes' ps' data' (log ++ [Process p data])
      | (ps', data', Raise e) => (ps', data', Raise e, log ++ [Process p data])
      end
  end.

Fixpoint close_each_log (pipes : list pipe) (ps : processors) (log : list call)
    : processors * result unit * list call :=
  match pipes with
  | nil => (ps, Ok tt, log)
  | p :: pipes' =>
      match close p ps with
      | (ps', Ok _) => close_each_log pipes' ps' (log ++ [Close p])
      | (ps', Raise e) => (ps', Raise e, log ++ [Close p])
      end
  end.

Fixpoint loop_log (env : Jsonlines.Env) (pipes : list pipe)
    (stream : list (gmap string value)) (ps : processors) (rows_counter : Z)
    (log : list call) : processors * result Z * list call :=
  match stream with
  | nil =>
      let '(ps', r, log') := close_each_log pipes ps log in
      (ps', bind r (fun _ => Ok rows_counter), log')
  | raw_data :: stream' =>
      match process_each_log env pipes ps raw_data log with
      | (ps', _, Ok _, log') => loop_log env pipes stream' ps' (rows_counter + 1) log'
      | (ps', _, Raise StopIteration, log') =>
          let '(ps'', r, log'') := close_each_log pipes ps' log' in
          (ps'', bind r (fun _ => Ok rows_counter), log'')
      | (ps', _, Raise e, log') => (ps', Raise e, log')
      end
  end.

Definition run_log (env : Jsonlines.Env) (ps : processors)
    (stream : list (gmap string value)) : processors * result Z * list call :=
  loop_log env pipelines stream ps 0 nil.

End Main.

(* ===================================================================== *)
(** * Vocabulary of the statements *)
(* ===================================================================== *)

(** Numbers used in the examples: 0.15, 2589.330078125 and their product
    388.39951171875 as binary64. *)
Definition f_0_15 : spec_float := S754_finite false 5404319552844595 (-55).
Definition f_2589_33 : spec_float := S754_finite false 5693997058097152 (-41).
Definition f_388_39 : spec_float := S754_finite false 6832796469716582 (-44).

(** ** Vocabulary of the statements about UUID strings *)

(** A hexadecimal digit, in either case. *)
Definition is_hex (c : ascii) : bool := digit_value c <? 16.

Fixpoint all_hex (s : string) : bool :=
  match s with
  | EmptyString => true
  | String c s' => is_hex c && all_hex s'
  end.

(** The digits of [s] read as a hexadecimal number, continuing [acc]. *)
Fixpoint hex_value (acc : Z) (s : string) : Z :=
  match s with
  | EmptyString => acc
  | String c s' => hex_value (acc * 16 + digit_value c) s'
  end.

(** [n] hexadecimal digits. *)
Definition hex_group (n : nat) (s : string) : Prop :=
  all_hex s = true /\ String.length s = n.

(** Five groups with hyphens between them. *)
Definition hyphenated (a b c d e : string) : string :=
  String.append a (String "-" (String.append b (String "-" (String.append c
    (String "-" (String.append d (String "-" e))))))).

(** Only hexadecimal digits and hyphens. *)
Fixpoint uuid_text (s : string) : bool :=
  match s with
  | EmptyString => true
  | String c s' => (is_hex c || Ascii.eqb c "-") && uuid_text s'
  end.



(** ** Vocabulary of the statements about the sinks *)

(** An environment in which every sink opens and every line is appended. *)
Definition ideal : Jsonlines.Env :=
  {| Jsonlines.opening := fun _ => Ok tt;
     Jsonlines.appending := fun _ _ => Ok tt |}.

(** An environment that refuses a NUL character in a file name, as [open]
    does everywhere, and is ideal otherwise. *)
Definition no_nul : Jsonlines.Env :=
  {| Jsonlines.opening := fun p =>
       match p with
       | Jsonlines.Format _ (VStr s) =>
           if mem_char "000"%char s then Raise ValueError else Ok tt
       | _ => Ok tt
       end;
     Jsonlines.appending := fun _ _ => Ok tt |}.



(** The record can be serialised and appended, whichever the sink. *)
Definition writable (env : Jsonlines.Env) (data : gmap string value) : Prop :=
  forall p, Jsonlines.appending env p data = Ok tt.

(** The sink the splitting processor [s] derives from the [type] of the
    record can be opened. *)
Definition sink_opens (env : Jsonlines.Env) (s : SplittingProcessor.t)
    (data : gmap string value) : Prop :=
  Jsonlines.opening env
    (Jsonlines.Format (SplittingProcessor.output_path s) (get data "type")) = Ok tt.

(** ** Vocabulary of the statements about the main loop *)

(** No sink has been closed yet. *)
Definition all_open (ps : Main.processors) : Prop :=
  Jsonlines.closed (ValidationProcessor.errors_logger (Main.validator ps)) = false
  /\ forall k w,
       SplittingProcessor._cached_writers (Main.splitter ps) !! k = Some w ->
       Jsonlines.closed w = false.

(** Every sink has been closed. *)
Definition all_closed (ps : Main.processors) : Prop :=
  Jsonlines.closed (ValidationProcessor.errors_logger (Main.validator ps)) = true
  /\ forall k w,
       SplittingProcessor._cached_writers (Main.splitter ps) !! k = Some w ->
       Jsonlines.closed w = true.

(** The record as the currency stage hands it on. *)
Definition converted (ex : ExchangeProcessor.t) (data : gmap string value)
    : gmap string value :=
  fst (ExchangeProcessor.process ex data).

(** The validation stage sends the record to the dead letters: its
    [linkid] is falsy, or [is_valid_uuid] answers [False]. *)
Definition dead_letter (data : gmap string value) : bool :=
  negb (Py.truthy (get data "linkid"))
  || match Processor.is_valid_uuid (get data "linkid") with
     | Ok Processor.PyFalse => true
     | _ => false
     end.

(** The record gives no processor a reason to raise: the conversion goes
    through; a truthy [linkid] is a string; a record bound for the dead
    letters can be written; and when the splitting stage is about to write
    the record, its [type] can be hashed, the sink for that [type] can be
    opened and the record can be written.  Of [ps] only the currency
    processor, the flag [strict_uuid] and the template [output_path]
    matter. *)
Definition raises_nothing (env : Jsonlines.Env) (ps : Main.processors)
    (data : gmap string value) : Prop :=
  let data' := converted (Main.exchanger ps) data in
  snd (ExchangeProcessor.process (Main.exchanger ps) data) = Ok tt
  /\ (Py.truthy (get data' "linkid") = true ->
      is_ok (Processor.is_valid_uuid (get data' "linkid")) = true)
  /\ (dead_letter data' = true -> writable env data')
  /\ (Py.truthy (get data' "type") = true ->
      SplittingProcessor.accepts (Main.splitter ps) data' = Ok true ->
      is_ok (Key.hash (get data' "type")) = true
      /\ sink_opens env (Main.splitter ps) data'
      /\ writable env data').


(** ** Vocabulary of the statements about whole runs *)

(** The splitting stage writes the record to the sink cached under [k]. *)
Definition routed_to (s : SplittingProcessor.t) (k : Key.t)
    (data : gmap string value) : bool :=
  Py.truthy (get data "type")
  && match SplittingProcessor.accepts s data with
     | Ok true => true
     | _ => false
     end
  && match Key.hash (get data "type") with
     | Ok k' => bool_decide (k' = k)
     | Raise _ => false
     end.

(** The lines written so far to the sink cached under [k]; none when the
    cache has no such sink. *)
Definition lines_at (s : SplittingProcessor.t) (k : Key.t)
    : list (gmap string value) :=
  match SplittingProcessor._cached_writers s !! k with
  | Some w => Jsonlines.written w
  | None => []
  end.

(** The validation processor after [self.errors_logger.write(data)] on an
    open writer. *)
Definition logged (v : ValidationProcessor.t) (data : gmap string value)
    : ValidationProcessor.t :=
  {| ValidationProcessor.errors_output := ValidationProcessor.errors_output v;
     ValidationProcessor.errors_logger :=
       {| Jsonlines.target := Jsonlines.target (ValidationProcessor.errors_logger v);
          Jsonlines.written :=
            Jsonlines.written (ValidationProcessor.errors_logger v) ++ [data];
          Jsonlines.closed := false |} |}.


(** The processors as [Main.create] leaves them when the dead-letter sink
    opens. *)
Definition fresh (rates : gmap string value) : Main.processors :=
  {| Main.exchanger := ExchangeProcessor.init rates "USD";
     Main.validator :=
       {| ValidationProcessor.errors_output := "./deadletters.json";
          ValidationProcessor.errors_logger :=
            {| Jsonlines.target := Jsonlines.Literal "./deadletters.json";
               Jsonlines.written := [];
               Jsonlines.closed := false |} |};
     Main.splitter := SplittingProcessor.init "./{type}.json" true |}.

(** The states the three processors can be in: as created, or after any
    sequence of calls to [process] and [close], in whatever order, on
    whatever records, and however the calls end. *)
Inductive reachable (env : Jsonlines.Env) (rates : gmap string value)
    : Main.processors -> Prop :=
  | reach_create (ps : Main.processors) :
      Main.create env rates = Ok ps ->
      reachable env rates ps
  | reach_process (p : Main.pipe) (ps : Main.processors) (data : gmap string value) :
      reachable env rates ps ->
      reachable env rates (fst (fst (Main.process env p ps data)))
  | reach_close (p : Main.pipe) (ps : Main.processors) :
      reachable env rates ps ->
      reachable env rates (fst (Main.close p ps)).

(** Every line of every sink belongs there: the dead letters hold records
    the validation stage diverts, and the sink under [k] holds records the
    splitting stage routes to [k]. *)
Definition sinks_sound (ps : Main.processors) : Prop :=
  Forall (fun data => dead_letter data = true)
    (Jsonlines.written (ValidationProcessor.errors_logger (Main.validator ps)))
  /\ forall k w,
       SplittingProcessor._cached_writers (Main.splitter ps) !! k = Some w ->
       Forall (fun data => routed_to (Main.splitter ps) k data = true)
         (Jsonlines.written w).

(* ===================================================================== *)
(** * Facts about the runtime *)
(* ===================================================================== *)

Lemma get_lookup (d : gmap string value) (k : string) (v : value) :
  d !! k = Some v -> get d k = v.
Proof. unfold get. intros ->. reflexivity. Qed.

Lemma get_absent (d : gmap string value) (k : string) :
  d !! k = None -> get d k = VNone.
Proof. unfold get. intros ->. reflexivity. Qed.

Lemma getitem_get (d : gmap string value) (k : string) :
  Py.truthy (get d k) = true -> getitem d k = Ok (get d k).
Proof.
  unfold get, getitem. destruct (d !! k); [reflexivity | discriminate].
Qed.

Lemma ne_str_same (s : string) : ne_str (VStr s) s = false.
Proof. simpl. rewrite String.eqb_refl. reflexivity. Qed.

Lemma ne_str_other (s s' : string) : s <> s' -> ne_str (VStr s) s' = true.
Proof.
  intros Hne. simpl. destruct (String.eqb_spec s s'); [contradiction | reflexivity].
Qed.

Lemma mul_floats (f g : spec_float) :
  mul (VFloat f) (VFloat g) = Ok (VFloat (float_mul f g)).
Proof. reflexivity. Qed.

Lemma mul_ints (x y : Z) : mul (VInt x) (VInt y) = Ok (VInt (x * y)).
Proof. reflexivity. Qed.

(** [int(s, 16)] and [uuid.UUID(hex)] raise nothing but [ValueError]. *)
Lemma PyLong_FromString16_raises_only_ValueError (s : string) (e : exn) :
  PyLong_FromString16 s = Raise e -> e = ValueError.
Proof.
  unfold PyLong_FromString16. destruct (strip_sign (skip_space s)) as [sign s1].
  intros H. repeat case_match; congruence.
Qed.

Lemma int16_raises_only_ValueError (s : string) (e : exn) :
  int16 s = Raise e -> e = ValueError.
Proof. unfold int16. apply PyLong_FromString16_raises_only_ValueError. Qed.

Lemma of_hex_raises_only_ValueError (hex : string) (e : exn) :
  Uuid.of_hex hex = Raise e -> e = ValueError.
Proof.
  unfold Uuid.of_hex. intros H.
  destruct (negb _); [congruence|].
  destruct (int16 _) as [n|e'] eqn:Hint; simpl in H.
  - destruct (negb _); congruence.
  - apply int16_raises_only_ValueError in Hint. congruence.
Qed.

(** The test [test_ExchangeProcessor_usd], for a rate table that maps DKK
    to 0.15. *)
Example test_ExchangeProcessor_usd :
  ExchangeProcessor.process
    (ExchangeProcessor.init {[ "DKK" := VFloat f_0_15 ]} "USD")
    (<["convvalue" := VFloat f_2589_33]>
       (<["convvalueunit" := VStr "DKK"]> {[ "convvaluetype" := VStr "currency" ]}))
  = (<["convusdvalue" := VFloat f_388_39]>
       (<["convvalue" := VFloat f_2589_33]>
          (<["convvalueunit" := VStr "DKK"]> {[ "convvaluetype" := VStr "currency" ]})),
     Ok tt).
Proof. vm_compute. reflexivity. Qed.

(* ===================================================================== *)
(** * Parsing UUID strings *)
(* ===================================================================== *)

(** Case analysis on the eight bits of a character. *)
Ltac by_bits c :=
  destruct c as [[] [] [] [] [] [] [] []].

Lemma hex_char_facts (c : ascii) :
  is_hex c = true ->
  Ascii.eqb c "_" = false /\ Ascii.eqb c "-" = false /\ Ascii.eqb "u" c = false
  /\ mem_char c "{}" = false /\ Py_ISSPACE c = false
  /\ strip_sign (String c EmptyString) = (1, String c EmptyString).
Proof.
  by_bits c; intros H; try discriminate H;
    repeat split; reflexivity.
Qed.

Lemma append_cons (c : ascii) (s t : string) :
  String.append (String c s) t = String c (String.append s t).
Proof. reflexivity. Qed.

Lemma length_append (s t : string) :
  String.length (String.append s t) = (String.length s + String.length t)%nat.
Proof. induction s as [|c s IH]; simpl; [reflexivity | rewrite IH; reflexivity]. Qed.

Lemma all_hex_append (s t : string) :
  all_hex (String.append s t) = all_hex s && all_hex t.
Proof.
  induction s as [|c s IH]; simpl; [reflexivity|].
  rewrite IH, andb_assoc. reflexivity.
Qed.

(** Removing a substring whose first character does not occur. *)
Lemma remove_absent (c0 : ascii) (old' s : string) :
  mem_char c0 s = false -> remove (String c0 old') s = s.
Proof.
  unfold remove. induction s as [|c s IH]; intros Hmem; [reflexivity|].
  simpl in Hmem. apply orb_false_elim in Hmem as [Hc Hs].
  cbn [remove_from String.prefix].
  destruct (ascii_dec c0 c) as [->|_].
  - rewrite Ascii.eqb_refl in Hc. discriminate Hc.
  - rewrite (IH Hs). reflexivity.
Qed.

Lemma remove_hyphen_cons (c : ascii) (s : string) :
  remove "-" (String c s)
  = if Ascii.eqb c "-" then remove "-" s else String c (remove "-" s).
Proof.
  unfold remove. cbn [remove_from String.prefix].
  destruct (ascii_dec "-" c) as [<-|Hne].
  - assert (String.prefix EmptyString s = true) as -> by (destruct s; reflexivity).
    reflexivity.
  - destruct (Ascii.eqb_spec c "-") as [->|_]; [contradiction | reflexivity].
Qed.

Lemma remove_hyphen_hex (h t : string) :
  all_hex h = true ->
  remove "-" (String.append h t) = String.append h (remove "-" t).
Proof.
  induction h as [|c h IH]; intros Hh; [reflexivity|].
  simpl in Hh. apply andb_prop in Hh as [Hc Hh].
  rewrite !append_cons, remove_hyphen_cons.
  destruct (hex_char_facts c Hc) as (_ & -> & _). rewrite (IH Hh). reflexivity.
Qed.

Lemma remove_hyphen_group (h t : string) :
  all_hex h = true ->
  remove "-" (String.append h (String "-" t)) = String.append h (remove "-" t).
Proof.
  intros Hh. rewrite (remove_hyphen_hex h _ Hh), remove_hyphen_cons. reflexivity.
Qed.

Lemma uuid_text_append (s t : string) :
  uuid_text (String.append s t) = uuid_text s && uuid_text t.
Proof.
  induction s as [|c s IH]; simpl; [reflexivity|].
  rewrite IH, andb_assoc. reflexivity.
Qed.

Lemma all_hex_uuid_text (s : string) : all_hex s = true -> uuid_text s = true.
Proof.
  induction s as [|c s IH]; simpl; [reflexivity|].
  intros [-> Hs]%andb_prop. rewrite (IH Hs). reflexivity.
Qed.

Lemma uuid_char_facts (c : ascii) :
  is_hex c || Ascii.eqb c "-" = true ->
  Ascii.eqb "u" c = false /\ mem_char c "{}" = false.
Proof.
  by_bits c; intros H; try discriminate H;
    split; reflexivity.
Qed.

Lemma uuid_text_no_u (s : string) : uuid_text s = true -> mem_char "u" s = false.
Proof.
  induction s as [|c s IH]; cbn [uuid_text mem_char]; [reflexivity|].
  intros [Hc Hs]%andb_prop.
  destruct (uuid_char_facts c Hc) as (-> & _). rewrite (IH Hs). reflexivity.
Qed.

Lemma uuid_text_lstrip (s : string) : uuid_text s = true -> lstrip "{}" s = s.
Proof.
  destruct s as [|c s]; [reflexivity|]. cbn [uuid_text lstrip].
  intros [Hc _]%andb_prop.
  destruct (uuid_char_facts c Hc) as (_ & ->). reflexivity.
Qed.

Lemma uuid_text_rstrip (s : string) : uuid_text s = true -> rstrip "{}" s = s.
Proof.
  induction s as [|c s IH]; [reflexivity|]. cbn [uuid_text rstrip].
  intros [Hc Hs]%andb_prop. rewrite (IH Hs).
  destruct (uuid_char_facts c Hc) as (_ & ->).
  destruct s; reflexivity.
Qed.

Lemma digit_value_nonneg (c : ascii) : 0 <= digit_value c.
Proof.
  unfold digit_value.
  repeat match goal with
         | |- context [if ?b then _ else _] => destruct b eqn:?
         end; lia.
Qed.

Lemma hex_value_bounds (h : string) :
  forall acc, all_hex h = true -> 0 <= acc ->
    acc * 16 ^ Z.of_nat (String.length h) <= hex_value acc h
    < (acc + 1) * 16 ^ Z.of_nat (String.length h).
Proof.
  induction h as [|c h IH]; intros acc Hh Hacc.
  - simpl. lia.
  - simpl in Hh. apply andb_prop in Hh as [Hc Hh].
    unfold is_hex in Hc. apply Z.ltb_lt in Hc.
    pose proof (digit_value_nonneg c) as Hd.
    cbn [hex_value String.length].
    specialize (IH (acc * 16 + digit_value c) Hh ltac:(lia)).
    rewrite Nat2Z.inj_succ, Z.pow_succ_r by lia.
    nia.
Qed.

Lemma scan_hex_digits (h : string) :
  forall n acc, all_hex h = true ->
    scan_digits_from 16 h false n acc
    = Some (MkScan EmptyString false (n + String.length h) (hex_value acc h)).
Proof.
  induction h as [|c h IH]; intros n acc Hh.
  - simpl. rewrite Nat.add_0_r. reflexivity.
  - simpl in Hh. apply andb_prop in Hh as [Hc Hh].
    cbn [scan_digits_from hex_value String.length].
    destruct (hex_char_facts c Hc) as (-> & _).
    unfold is_hex in Hc. rewrite Hc, (IH _ _ Hh).
    rewrite Nat.add_succ_r. reflexivity.
Qed.

Lemma remove_hyphen_all_hex (h : string) : all_hex h = true -> remove "-" h = h.
Proof.
  induction h as [|c h IH]; intros Hh; [reflexivity|].
  simpl in Hh. apply andb_prop in Hh as [Hc Hh].
  rewrite remove_hyphen_cons.
  destruct (hex_char_facts c Hc) as (_ & -> & _). rewrite (IH Hh). reflexivity.
Qed.

Lemma strip_sign_hex (c : ascii) (t : string) :
  is_hex c = true -> strip_sign (String c t) = (1, String c t).
Proof.
  by_bits c; intros H; try discriminate H; reflexivity.
Qed.

Lemma strip_hex_prefix_hex (c : ascii) (t : string) :
  all_hex (String c t) = true -> strip_hex_prefix (String c t) = String c t.
Proof.
  cbn [all_hex]. intros [Hc Ht]%andb_prop.
  destruct (Ascii.eqb_spec c "0") as [->|Hne].
  - destruct t as [|c2 t]; [reflexivity|].
    cbn [all_hex] in Ht. apply andb_prop in Ht as [Hc2 _].
    by_bits c2; try discriminate Hc2; reflexivity.
  - by_bits c; try discriminate Hc;
      try reflexivity; contradiction Hne; reflexivity.
Qed.

(** [int(h, 16)] on a non-empty string of hexadecimal digits. *)
Lemma hex_is_ascii_char (c : ascii) : is_hex c = true -> is_ascii_char c = true.
Proof. by_bits c; intros H; try discriminate H; reflexivity. Qed.

Lemma all_hex_is_ascii (h : string) : all_hex h = true -> is_ascii h = true.
Proof.
  induction h as [|c h IH]; [reflexivity|]. cbn [all_hex is_ascii].
  intros [Hc Hh]%andb_prop. rewrite (hex_is_ascii_char c Hc), (IH Hh). reflexivity.
Qed.

Lemma int16_hex (h : string) :
  all_hex h = true -> h <> EmptyString -> int16 h = Ok (hex_value 0 h).
Proof.
  intros Hh Hne. unfold int16, decimal_and_space_to_ascii.
  rewrite (all_hex_is_ascii h Hh).
  destruct h as [|c t]; [contradiction|].
  pose proof Hh as Hc. cbn [all_hex] in Hc. apply andb_prop in Hc as [Hc _].
  unfold PyLong_FromString16. cbn [skip_space].
  destruct (hex_char_facts c Hc) as (_ & _ & _ & _ & -> & _).
  rewrite (strip_sign_hex c t Hc), (strip_hex_prefix_hex c t Hh).
  rewrite (scan_hex_digits (String c t) 0 0 Hh).
  cbn [scan_prev_us scan_digits scan_rest scan_value String.length Nat.add Nat.eqb skip_space].
  by_bits c; try discriminate Hc;
    f_equal; lia.
Qed.

(** A UUID written as five groups of 8, 4, 4, 4 and 12 hexadecimal digits
    with hyphens between them is parsed, its value being the 32 digits read
    as one hexadecimal number. *)
Lemma hyphenated_uuid_parses (a b c d e : string) :
  hex_group 8 a -> hex_group 4 b -> hex_group 4 c -> hex_group 4 d ->
  hex_group 12 e ->
  Uuid.of_hex (hyphenated a b c d e)
  = Ok (Uuid.MkUUID
          (hex_value 0 (String.append a (String.append b (String.append c
                          (String.append d e)))))).
Proof.
  intros [Ha La] [Hb Lb] [Hc Lc] [Hd Ld] [He Le].
  assert (uuid_text (hyphenated a b c d e) = true) as Htext.
  { unfold hyphenated.
    repeat (rewrite uuid_text_append; cbn [uuid_text]).
    rewrite !all_hex_uuid_text by assumption. reflexivity. }
  set (h := String.append a (String.append b (String.append c (String.append d e)))).
  assert (all_hex h = true) as Hh.
  { unfold h. rewrite !all_hex_append, Ha, Hb, Hc, Hd, He. reflexivity. }
  assert (String.length h = 32%nat) as Lh.
  { unfold h. rewrite !length_append, La, Lb, Lc, Ld, Le. reflexivity. }
  unfold Uuid.of_hex.
  rewrite (remove_absent "u" "rn:" _ (uuid_text_no_u _ Htext)).
  rewrite (remove_absent "u" "uid:" _ (uuid_text_no_u _ Htext)).
  unfold strip. rewrite (uuid_text_lstrip _ Htext), (uuid_text_rstrip _ Htext).
  assert (remove "-" (hyphenated a b c d e) = h) as ->.
  { unfold hyphenated, h.
    rewrite !remove_hyphen_group by assumption.
    rewrite (remove_hyphen_all_hex e He). reflexivity. }
  rewrite Lh. cbn [Nat.eqb negb].
  rewrite int16_hex; [|exact Hh | intros ->; discriminate Lh].
  cbn [bind].
  pose proof (hex_value_bounds h 0 Hh ltac:(lia)) as Hb'.
  rewrite Lh in Hb'.
  change (16 ^ Z.of_nat 32) with (2 ^ 128) in Hb'.
  destruct (Z.leb_spec 0 (hex_value 0 h)); [|lia].
  destruct (Z.ltb_spec (hex_value 0 h) (2 ^ 128)); [|lia].
  reflexivity.
Qed.

Example uuid_hyphenated :
  Uuid.of_hex "9a7c6e3a-0b38-4883-b21a-2daeb704b595"
  = Ok (Uuid.MkUUID 205347191825097567957879359027913471381).
Proof. vm_compute. reflexivity. Qed.

(** Forms other than the hyphenated one are accepted as well: without
    hyphens, in braces, as a URN, or with the prefix and the digit
    separators that [int(_, 16)] understands. *)
Example uuid_other_forms :
  Uuid.of_hex "9a7c6e3a0b384883b21a2daeb704b595"
  = Ok (Uuid.MkUUID 205347191825097567957879359027913471381)
  /\ Uuid.of_hex "{9a7c6e3a-0b38-4883-b21a-2daeb704b595}"
     = Ok (Uuid.MkUUID 205347191825097567957879359027913471381)
  /\ Uuid.of_hex "urn:uuid:9a7c6e3a-0b38-4883-b21a-2daeb704b595"
     = Ok (Uuid.MkUUID 205347191825097567957879359027913471381)
  /\ Uuid.of_hex "0x7c6e3a0b384883b21a2daeb704b595"
     = Ok (Uuid.MkUUID 646080474220523530693071744740406677)
  /\ Uuid.of_hex "9a7c_6e3a_0b38_4883_b21a_2daeb70"
     = Ok (Uuid.MkUUID 195834342789743011434440001514352)
  /\ Uuid.of_hex "9a7c6e3a-0b38-4883-b21a-2daeb704b59"
     = Raise ValueError.
Proof. vm_compute. repeat split; reflexivity. Qed.

(** [is_valid_uuid] on a hyphenated UUID. *)
Lemma hyphenated_uuid_is_valid (a b c d e : string) :
  hex_group 8 a -> hex_group 4 b -> hex_group 4 c -> hex_group 4 d ->
  hex_group 12 e ->
  exists u,
    Processor.is_valid_uuid (VStr (hyphenated a b c d e)) = Ok (Processor.Parsed u)
    /\ Uuid.int u
       = hex_value 0 (String.append a (String.append b (String.append c
                        (String.append d e)))).
Proof.
  intros Ha Hb Hc Hd He. unfold Processor.is_valid_uuid. cbn [Uuid.new].
  rewrite (hyphenated_uuid_parses a b c d e Ha Hb Hc Hd He).
  eexists. split; reflexivity.
Qed.

Lemma remove_from_length (old : string) (s : string) :
  forall skip, (String.length (remove_from old skip s) <= String.length s)%nat.
Proof.
  induction s as [|c s IH]; intros skip; cbn [remove_from String.length]; [lia|].
  destruct skip as [|skip]; [|specialize (IH skip); lia].
  destruct (String.prefix old (String c s)).
  - specialize (IH (Nat.pred (String.length old))). lia.
  - cbn [String.length]. specialize (IH O). lia.
Qed.

Lemma lstrip_length (chars s : string) :
  (String.length (lstrip chars s) <= String.length s)%nat.
Proof.
  induction s as [|c s IH]; cbn [lstrip String.length]; [lia|].
  destruct (mem_char c chars); cbn [String.length]; lia.
Qed.

Lemma rstrip_length (chars s : string) :
  (String.length (rstrip chars s) <= String.length s)%nat.
Proof.
  induction s as [|c s IH]; cbn [rstrip String.length]; [lia|].
  destruct (rstrip chars s) as [|c' r].
  - destruct (mem_char c chars); cbn [String.length]; lia.
  - cbn [String.length] in *. lia.
Qed.

(** A string of fewer than 32 characters is rejected. *)
Lemma short_string_is_no_uuid (s : string) :
  (String.length s < 32)%nat -> Uuid.of_hex s = Raise ValueError.
Proof.
  intros Hlen. unfold Uuid.of_hex, strip, remove.
  set (t := remove_from "-" 0 _).
  assert (String.length t <= String.length s)%nat as Ht.
  { unfold t.
    etransitivity; [apply remove_from_length|].
    etransitivity; [apply rstrip_length|].
    etransitivity; [apply lstrip_length|].
    etransitivity; [apply remove_from_length|].
    apply remove_from_length. }
  destruct (Nat.eqb_spec (String.length t) 32) as [Heq|_]; [lia|].
  reflexivity.
Qed.











(* ===================================================================== *)
(** * The currency conversion stage *)
(* ===================================================================== *)

(** C4.  A record whose [convvalue] is absent, null or falsy in any other
    way, or whose [convvalueunit] is the target currency, comes out of
    [ExchangeProcessor.process] exactly as it went in, and the call returns
    normally. *)
Theorem exchange_leaves_record_alone
    (self : ExchangeProcessor.t) (data : gmap string value) :
  data !! "convvalue" = None
  \/ data !! "convvalue" = Some VNone
  \/ (exists v, data !! "convvalue" = Some v /\ Py.truthy v = false)
  \/ data !! "convvalueunit" = Some (VStr (ExchangeProcessor.default_currency self)) ->
  ExchangeProcessor.process self data = (data, Ok tt).
Proof.
  intros H. unfold ExchangeProcessor.process.
  destruct H as [H | [H | [(v & H & Hv) | H]]].
  - rewrite (get_absent _ _ H). reflexivity.
  - rewrite (get_lookup _ _ _ H). reflexivity.
  - rewrite (get_lookup _ _ _ H), Hv. reflexivity.
  - rewrite (get_lookup _ _ _ H), ne_str_same, andb_false_r. reflexivity.
Qed.

Lemma exchange_leaves_record_alone_witness :
  ExchangeProcessor.process
    (ExchangeProcessor.init {[ "DKK" := VFloat f_0_15 ]} "USD")
    (<["convvalue" := VFloat f_2589_33]> {[ "convvalueunit" := VStr "USD" ]})
  = (<["convvalue" := VFloat f_2589_33]> {[ "convvalueunit" := VStr "USD" ]}, Ok tt).
Proof.
  apply exchange_leaves_record_alone.
  right. right. right. reflexivity.
Defined.

(** C5, amended.  When [convvalue] is truthy and [convvalueunit] differs from
    the target currency but is no key of the rate table (the field may also
    be missing from the record), the lookup
    [self.ex_rates[data['convvalueunit']]] raises, [process] lets that
    exception through, and the record is as it was: nothing has been stored.
    The exception is a [KeyError], which is a lookup error, when the unit
    can be hashed, and a [TypeError], which is none, when the unit is a JSON
    array or object. *)
Theorem exchange_unknown_unit_raises
    (self : ExchangeProcessor.t) (data : gmap string value) :
  Py.truthy (get data "convvalue") = true ->
  ne_str (get data "convvalueunit") (ExchangeProcessor.default_currency self) = true ->
  (forall u, data !! "convvalueunit" = Some (VStr u) ->
             ExchangeProcessor.ex_rates self !! u = None) ->
  let e := if is_ok (Key.hash (get data "convvalueunit")) then KeyError else TypeError in
  ExchangeProcessor.rate self data = Raise e
  /\ ExchangeProcessor.process self data = (data, Raise e)
  /\ (is_LookupError e = true <-> is_ok (Key.hash (get data "convvalueunit")) = true).
Proof.
  intros Hv Hne Hkey e.
  assert (ExchangeProcessor.rate self data = Raise e) as He.
  { unfold e, ExchangeProcessor.rate, getitem, get.
    destruct (data !! "convvalueunit") as [u|] eqn:Hu; simpl; [|reflexivity].
    destruct u; simpl; try reflexivity.
    unfold getitem. rewrite (Hkey _ eq_refl). reflexivity. }
  split; [exact He|]. split.
  - unfold ExchangeProcessor.process. rewrite Hv, Hne, He. reflexivity.
  - unfold e. destruct (is_ok (Key.hash (get data "convvalueunit"))); simpl;
      split; congruence.
Qed.

Lemma exchange_unknown_unit_raises_witness :
  let self := ExchangeProcessor.init {[ "DKK" := VFloat f_0_15 ]} "USD" in
  let data : gmap string value :=
    <["convvalue" := VFloat f_2589_33]> {[ "convvalueunit" := VStr "XXX" ]} in
  ExchangeProcessor.rate self data = Raise KeyError
  /\ ExchangeProcessor.process self data = (data, Raise KeyError).
Proof.
  intros self data.
  destruct (exchange_unknown_unit_raises self data) as (Hrate & Hprocess & _).
  - reflexivity.
  - reflexivity.
  - intros u Hu. vm_compute in Hu. injection Hu as <-. reflexivity.
  - split; [exact Hrate | exact Hprocess].
Defined.

(** C5 as stated does not hold: the exception need not be a lookup error.
    The unit [["DKK"]] of the record below differs from the target currency
    and is no key of the rate table; the lookup raises [TypeError], which is
    no [LookupError].  The record is left as it was. *)
Lemma exchange_array_unit_raises_TypeError :
  let self := ExchangeProcessor.init {[ "DKK" := VFloat f_0_15 ]} "USD" in
  let data : gmap string value :=
    <["convvalue" := VFloat f_2589_33]> {[ "convvalueunit" := VList [VStr "DKK"] ]} in
  Py.truthy (get data "convvalue") = true
  /\ ne_str (get data "convvalueunit") (ExchangeProcessor.default_currency self) = true
  /\ (forall u, data !! "convvalueunit" = Some (VStr u) ->
                ExchangeProcessor.ex_rates self !! u = None)
  /\ ExchangeProcessor.rate self data = Raise TypeError
  /\ ExchangeProcessor.process self data = (data, Raise TypeError)
  /\ is_LookupError TypeError = false.
Proof.
  intros self data.
  split; [reflexivity|]. split; [reflexivity|].
  split; [intros u Hu; vm_compute in Hu; discriminate Hu|].
  split; [reflexivity|]. split; [vm_compute; reflexivity | reflexivity].
Qed.

(** C3, amended.  When [convvalue] is truthy, [convvalueunit] is a currency
    other than the target one with rate [r] in the rate table, and the Python
    product [r * convvalue] exists and is [p], then [process] stores exactly
    [p] under [conv<lowercased currency>value], changes no other field and
    returns normally.  For two floats [p] is their binary64 product, with no
    rounding besides the one of the multiplication itself; for two integers
    it is their exact product. *)
Theorem exchange_stores_product
    (rates : gmap string value) (currency : string)
    (data : gmap string value) (v : value) (u : string) (r p : value) :
  data !! "convvalue" = Some v ->
  Py.truthy v = true ->
  data !! "convvalueunit" = Some (VStr u) ->
  u <> currency ->
  rates !! u = Some r ->
  mul r v = Ok p ->
  let self := ExchangeProcessor.init rates currency in
  let key := String.append "conv" (String.append (lower currency) "value") in
  ExchangeProcessor.process self data = (<[key := p]> data, Ok tt)
  /\ (forall k, k <> key ->
        fst (ExchangeProcessor.process self data) !! k = data !! k)
  /\ (forall f g, r = VFloat f -> v = VFloat g -> p = VFloat (float_mul f g))
  /\ (forall x y, r = VInt x -> v = VInt y -> p = VInt (x * y)).
Proof.
  intros Hv Ht Hu Hne Hr Hp self key.
  assert (ExchangeProcessor.process self data = (<[key := p]> data, Ok tt)) as Hproc.
  { unfold ExchangeProcessor.process, ExchangeProcessor.rate, self. simpl.
    rewrite (get_lookup _ _ _ Hv), Ht, (get_lookup _ _ _ Hu), (ne_str_other _ _ Hne).
    unfold getitem at 1 2. rewrite Hu, Hv. simpl.
    unfold getitem. rewrite Hr. simpl. rewrite Hp. reflexivity. }
  split; [exact Hproc|]. split.
  - intros k Hk. rewrite Hproc. simpl. apply lookup_insert_ne. congruence.
  - split.
    + intros f g -> ->. rewrite mul_floats in Hp. congruence.
    + intros x y -> ->. rewrite mul_ints in Hp. congruence.
Qed.

Lemma exchange_stores_product_witness :
  ExchangeProcessor.process
    (ExchangeProcessor.init {[ "JPY" := VFloat f_0_15 ]} "DKK")
    (<["convvalue" := VFloat f_2589_33]> {[ "convvalueunit" := VStr "JPY" ]})
  = (<["convdkkvalue" := VFloat f_388_39]>
       (<["convvalue" := VFloat f_2589_33]> {[ "convvalueunit" := VStr "JPY" ]}),
     Ok tt).
Proof.
  refine (proj1 (exchange_stores_product {[ "JPY" := VFloat f_0_15 ]} "DKK"
                   (<["convvalue" := VFloat f_2589_33]> {[ "convvalueunit" := VStr "JPY" ]})
                   (VFloat f_2589_33) "JPY" (VFloat f_0_15) (VFloat f_388_39)
                   _ _ _ _ _ _)).
  - reflexivity.
  - reflexivity.
  - reflexivity.
  - discriminate.
  - reflexivity.
  - vm_compute. reflexivity.
Defined.

(** C3 as stated does not hold: a truthy [convvalue] need not be a number.
    With the string ["abc"] and a float rate the product does not exist,
    the call raises [TypeError] and nothing is stored. *)
Lemma exchange_string_convvalue_raises :
  let self := ExchangeProcessor.init {[ "DKK" := VFloat f_0_15 ]} "USD" in
  let data : gmap string value :=
    <["convvalue" := VStr "abc"]> {[ "convvalueunit" := VStr "DKK" ]} in
  Py.truthy (get data "convvalue") = true
  /\ ne_str (get data "convvalueunit") (ExchangeProcessor.default_currency self) = true
  /\ ExchangeProcessor.ex_rates self !! "DKK" = Some (VFloat f_0_15)
  /\ ExchangeProcessor.process self data = (data, Raise TypeError)
  /\ ~ (exists p, ExchangeProcessor.process self data
                  = (<[ExchangeProcessor.currency_key self := p]> data, Ok tt)).
Proof.
  intros self data.
  assert (ExchangeProcessor.process self data = (data, Raise TypeError)) as Hproc
    by (vm_compute; reflexivity).
  split; [reflexivity|]. split; [reflexivity|]. split; [reflexivity|].
  split; [exact Hproc|].
  intros [p Hp]. rewrite Hproc in Hp. discriminate Hp.
Qed.

(* ===================================================================== *)
(** * No stage removes a field *)
(* ===================================================================== *)

Lemma exchange_keeps_keys (self : ExchangeProcessor.t) (data : gmap string value)
    (k : string) :
  is_Some (data !! k) ->
  is_Some (fst (ExchangeProcessor.process self data) !! k).
Proof.
  intros Hk. unfold ExchangeProcessor.process.
  destruct (_ && _); [|exact Hk].
  destruct (bind _ _); [|exact Hk].
  simpl. rewrite lookup_insert_is_Some'. right. exact Hk.
Qed.

(** C9.  Whichever of the three processors is called, if the call returns
    normally then every key the record had before the call is still a key
    of the record after it. *)
Theorem process_keeps_keys (env : Jsonlines.Env)
    (p : Main.pipe) (ps ps' : Main.processors) (data data' : gmap string value) :
  Main.process env p ps data = (ps', data', Ok tt) ->
  forall k, is_Some (data !! k) -> is_Some (data' !! k).
Proof.
  intros Hcall k Hk. destruct p; simpl in Hcall.
  - pose proof (exchange_keeps_keys (Main.exchanger ps) data k Hk) as Hkeep.
    destruct (ExchangeProcessor.process (Main.exchanger ps) data) as [d r].
    injection Hcall as _ <- _. exact Hkeep.
  - destruct (ValidationProcessor.process env (Main.validator ps) data).
    injection Hcall as _ <- _. exact Hk.
  - destruct (SplittingProcessor.process env (Main.splitter ps) data).
    injection Hcall as _ <- _. exact Hk.
Qed.

Lemma process_keeps_keys_witness :
  is_Some ((<["convusdvalue" := VFloat f_388_39]>
             (<["convvalue" := VFloat f_2589_33]>
                ({[ "convvalueunit" := VStr "DKK" ]} : gmap string value)))
           !! "convvalue").
Proof.
  apply (process_keeps_keys ideal Main.Exchanger
           (fresh {[ "DKK" := VFloat f_0_15 ]})
           (fresh {[ "DKK" := VFloat f_0_15 ]})
           (<["convvalue" := VFloat f_2589_33]> {[ "convvalueunit" := VStr "DKK" ]})).
  - vm_compute. reflexivity.
  - vm_compute. eauto.
Defined.

(* ===================================================================== *)
(** * A [linkid] that is not a string *)
(* ===================================================================== *)

Lemma is_valid_uuid_non_string (linkid : value) :
  Py.truthy linkid = true ->
  (forall s, linkid <> VStr s) ->
  Processor.is_valid_uuid linkid = Raise AttributeError.
Proof.
  intros Ht Hs. destruct linkid; try reflexivity.
  - discriminate Ht.
  - exfalso. exact (Hs s eq_refl).
Qed.

(** C10.  For a truthy [linkid] that is not a string, such as the integer 1,
    [uuid.UUID] raises [AttributeError], which [is_valid_uuid] does not
    catch: [ValidationProcessor.process] raises it, and so does
    [SplittingProcessor.process] in strict mode on a record with a truthy
    [type].  Neither writes the record anywhere. *)
Theorem non_string_linkid_raises (linkid : value) :
  Py.truthy linkid = true ->
  (forall s, linkid <> VStr s) ->
  Processor.is_valid_uuid linkid = Raise AttributeError
  /\ (forall (env : Jsonlines.Env) (self : ValidationProcessor.t)
            (data : gmap string value),
        data !! "linkid" = Some linkid ->
        ValidationProcessor.process env self data = (self, Raise AttributeError))
  /\ (forall (env : Jsonlines.Env) (self : SplittingProcessor.t)
            (data : gmap string value),
        SplittingProcessor.strict_uuid self = true ->
        Py.truthy (get data "type") = true ->
        data !! "linkid" = Some linkid ->
        SplittingProcessor.process env self data = (self, Raise AttributeError)).
Proof.
  intros Ht Hs.
  pose proof (is_valid_uuid_non_string linkid Ht Hs) as Hraise.
  split; [exact Hraise|]. split.
  - intros env self data Hl. unfold ValidationProcessor.process.
    rewrite (get_lookup _ _ _ Hl), Ht. simpl.
    unfold getitem. rewrite Hl. simpl. rewrite Hraise. reflexivity.
  - intros env self data Hstrict Hty Hl. unfold SplittingProcessor.process.
    rewrite Hty. unfold SplittingProcessor.accepts.
    rewrite Hstrict, (get_lookup _ _ _ Hl), Ht. simpl.
    unfold getitem. rewrite Hl. simpl. rewrite Hraise. reflexivity.
Qed.

Lemma non_string_linkid_raises_witness :
  Processor.is_valid_uuid (VInt 1) = Raise AttributeError
  /\ ValidationProcessor.process ideal (Main.validator (fresh ∅))
       {[ "linkid" := VInt 1 ]}
     = (Main.validator (fresh ∅), Raise AttributeError)
  /\ SplittingProcessor.process ideal (SplittingProcessor.init "./{type}.json" true)
       (<["type" := VStr "click"]> {[ "linkid" := VInt 1 ]})
     = (SplittingProcessor.init "./{type}.json" true, Raise AttributeError).
Proof.
  destruct (non_string_linkid_raises (VInt 1)) as (H1 & H2 & H3).
  - reflexivity.
  - discriminate.
  - split; [exact H1|]. split.
    + apply H2. reflexivity.
    + apply H3; reflexivity.
Defined.

(* ===================================================================== *)
(** * Closing the splitting stage *)
(* ===================================================================== *)

Lemma writer_close_closed (w : Jsonlines.Writer) :
  Jsonlines.closed (Jsonlines.close w) = true
  /\ Jsonlines.written (Jsonlines.close w) = Jsonlines.written w
  /\ Jsonlines.target (Jsonlines.close w) = Jsonlines.target w.
Proof.
  unfold Jsonlines.close. destruct (Jsonlines.closed w) eqn:Hc; simpl; auto.
Qed.

Lemma writer_close_twice (w : Jsonlines.Writer) :
  Jsonlines.close (Jsonlines.close w) = Jsonlines.close w.
Proof.
  unfold Jsonlines.close at 1.
  destruct (writer_close_closed w) as (-> & _). reflexivity.
Qed.

(** The loop over the keys never meets a missing key, and leaves under each
    key it visits the closed version of the writer that was there. *)
Lemma close_keys_visits (keys : list Key.t) :
  forall ws : gmap Key.t Jsonlines.Writer,
    (forall k, k ∈ keys -> is_Some (ws !! k)) ->
    exists ws',
      SplittingProcessor.close_keys keys ws = (ws', Ok tt)
      /\ forall k, ws' !! k = if decide (k ∈ keys)
                              then Jsonlines.close <$> ws !! k
                              else ws !! k.
Proof.
  induction keys as [|k keys IH]; intros ws Hin; simpl.
  - exists ws. split; [reflexivity|]. intros k.
    destruct (decide (k ∈ [])) as [Hk|_]; [inversion Hk | reflexivity].
  - destruct (Hin k) as [w Hw]; [left|]. rewrite Hw.
    destruct (IH (<[k := Jsonlines.close w]> ws)) as (ws' & Hrun & Hws').
    { intros j Hj. rewrite lookup_insert_is_Some'. right. apply Hin. right. exact Hj. }
    exists ws'. split; [exact Hrun|]. intros j. rewrite Hws'.
    destruct (decide (j = k)) as [->|Hjk].
    + rewrite lookup_insert_eq, Hw. simpl.
      destruct (decide (k ∈ keys)); destruct (decide (k ∈ k :: keys)) as [|Hn];
        simpl; rewrite ?writer_close_twice; try reflexivity;
        exfalso; apply Hn; left.
    + rewrite lookup_insert_ne by congruence.
      destruct (decide (j ∈ keys)) as [Hj|Hj];
        destruct (decide (j ∈ k :: keys)) as [Hj'|Hj']; try reflexivity.
      * exfalso. apply Hj'. right. exact Hj.
      * exfalso. apply elem_of_cons in Hj' as [?|?]; contradiction.
Qed.

Lemma keys_of_cache (ws : gmap Key.t Jsonlines.Writer) (k : Key.t) :
  k ∈ map fst (map_to_list ws) <-> is_Some (ws !! k).
Proof.
  rewrite list_elem_of_In, in_map_iff. split.
  - intros ([k' w] & <- & Hin). apply list_elem_of_In, elem_of_map_to_list in Hin.
    simpl. eauto.
  - intros [w Hw]. exists (k, w). split; [reflexivity|].
    apply list_elem_of_In, elem_of_map_to_list. exact Hw.
Qed.

(** What [close] computes. *)
Lemma splitting_close_result (self : SplittingProcessor.t) :
  SplittingProcessor.close self
  = (SplittingProcessor.set_writers self
       (Jsonlines.close <$> SplittingProcessor._cached_writers self), Ok tt).
Proof.
  unfold SplittingProcessor.close.
  destruct (close_keys_visits
              (map fst (map_to_list (SplittingProcessor._cached_writers self)))
              (SplittingProcessor._cached_writers self)) as (ws' & Hrun & Hws').
  { intros k Hk. apply keys_of_cache. exact Hk. }
  rewrite Hrun. f_equal. f_equal.
  apply map_eq. intros k. rewrite Hws', lookup_fmap.
  destruct (decide _) as [|Hk]; [reflexivity|].
  rewrite keys_of_cache in Hk.
  destruct (SplittingProcessor._cached_writers self !! k); [|reflexivity].
  exfalso. apply Hk. eauto.
Qed.


(** Two sinks, one of them already holding a line: both are closed. *)
Example splitting_close_two_sinks :
  let w1 := {| Jsonlines.target := Jsonlines.Format "./{type}.json" (VStr "click");
               Jsonlines.written := [];
               Jsonlines.closed := false |} in
  let w2 := {| Jsonlines.target := Jsonlines.Format "./{type}.json" (VInt 7);
               Jsonlines.written := [{[ "type" := VInt 7 ]}];
               Jsonlines.closed := false |} in
  SplittingProcessor.close
    {| SplittingProcessor.output_path := "./{type}.json";
       SplittingProcessor._cached_writers :=
         <[Key.KStr "click" := w1]> {[ Key.KInt 7 := w2 ]};
       SplittingProcessor.strict_uuid := true |}
  = ({| SplittingProcessor.output_path := "./{type}.json";
        SplittingProcessor._cached_writers :=
          <[Key.KStr "click" := Jsonlines.close w1]> {[ Key.KInt 7 := Jsonlines.close w2 ]};
        SplittingProcessor.strict_uuid := true |}, Ok tt).
Proof. vm_compute. reflexivity. Qed.

(* ===================================================================== *)
(** * The validation stage *)
(* ===================================================================== *)

(** X14.  What the validation stage does with a record.
    - Let the dead-letter writer be open, the [linkid] of the record be
      absent, falsy or a string, and the record be one the sink accepts.
      Then [process] returns normally; it appends the record, as it is, to
      the dead-letter sink when the [linkid] is absent or falsy or
      [is_valid_uuid] answers [False], and otherwise leaves the processor
      untouched.
    - Whatever the [linkid], the state of the sink and the environment, the
      record comes out of the call as it went in.
    - Whatever the state of the sink and the environment, a record that is
      not invalid is written nowhere. *)
Theorem validation_diverts_invalid
    (env : Jsonlines.Env) (self : ValidationProcessor.t) (data : gmap string value) :
  let invalid :=
    Py.truthy (get data "linkid") = false
    \/ Processor.is_valid_uuid (get data "linkid") = Ok Processor.PyFalse in
  (Jsonlines.closed (ValidationProcessor.errors_logger self) = false ->
   (Py.truthy (get data "linkid") = false \/ exists s, get data "linkid" = VStr s) ->
   Jsonlines.appending env
     (Jsonlines.target (ValidationProcessor.errors_logger self)) data = Ok tt ->
   (invalid -> ValidationProcessor.process env self data = (logged self data, Ok tt))
   /\ (~ invalid -> ValidationProcessor.process env self data = (self, Ok tt)))
  /\ (forall ps, snd (fst (Main.process env Main.Validator ps data)) = data)
  /\ (~ invalid -> fst (ValidationProcessor.process env self data) = self).
Proof.
  intros invalid. split; [|split].
  - intros Hopen Hshape Happ.
    unfold invalid, ValidationProcessor.process.
    unfold ValidationProcessor.log, Jsonlines.write, logged. rewrite Hopen, Happ.
    destruct (Py.truthy (get data "linkid")) eqn:Ht; simpl.
    + rewrite (getitem_get _ _ Ht). simpl.
      destruct Hshape as [Hf | [s Hs]]; [discriminate|]. rewrite Hs.
      unfold Processor.is_valid_uuid. simpl.
      destruct (Uuid.of_hex s) as [u|e] eqn:Hhex.
      * split; [intros [Hf|Hf]; discriminate | reflexivity].
      * apply of_hex_raises_only_ValueError in Hhex as ->. simpl.
        split; [reflexivity|].
        intros Hn. exfalso. apply Hn. right. reflexivity.
    + split; [reflexivity|].
      intros Hn. exfalso. apply Hn. left. reflexivity.
  - intros ps. simpl.
    destruct (ValidationProcessor.process env (Main.validator ps) data). reflexivity.
  - intros Hn. unfold ValidationProcessor.process.
    destruct (Py.truthy (get data "linkid")) eqn:Ht; simpl.
    + rewrite (getitem_get _ _ Ht). simpl.
      destruct (Processor.is_valid_uuid (get data "linkid")) as [[u|]|e] eqn:Hv;
        simpl; try reflexivity.
      exfalso. apply Hn. right. reflexivity.
    + exfalso. apply Hn. left. reflexivity.
Qed.

Lemma validation_diverts_invalid_witness :
  let data : gmap string value :=
    {[ "linkid" := VStr "incorrect-uuid-b21a-2daeb704b595" ]} in
  ValidationProcessor.process ideal (Main.validator (fresh ∅)) data
  = ({| ValidationProcessor.errors_output := "./deadletters.json";
        ValidationProcessor.errors_logger :=
          {| Jsonlines.target := Jsonlines.Literal "./deadletters.json";
             Jsonlines.written := [data];
             Jsonlines.closed := false |} |}, Ok tt).
Proof.
  intros data.
  destruct (validation_diverts_invalid ideal (Main.validator (fresh ∅)) data)
    as (Hopen & _ & _).
  destruct Hopen as (Hinvalid & _).
  - reflexivity.
  - right. eexists. reflexivity.
  - reflexivity.
  - apply Hinvalid. right. vm_compute. reflexivity.
Defined.

(** C6.  The [linkid] of the record [{"linkid": 1}] is truthy and is no
    UUID: [uuid.UUID] rejects it.  Yet [process] does not append the record
    to the dead-letter sink: whatever the processor and the environment, the
    call raises [AttributeError] and leaves the processor as it was.  The
    records [{"linkid": 0}] and [{"linkid": "1"}], which are no UUIDs
    either, are appended. *)
Theorem validation_integer_linkid_not_diverted
    (env : Jsonlines.Env) (self : ValidationProcessor.t) :
  let data : gmap string value := {[ "linkid" := VInt 1 ]} in
  Py.truthy (get data "linkid") = true
  /\ Uuid.new (get data "linkid") = Raise AttributeError
  /\ ValidationProcessor.process env self data = (self, Raise AttributeError)
  /\ ValidationProcessor.process ideal (Main.validator (fresh ∅)) {[ "linkid" := VInt 0 ]}
     = (logged (Main.validator (fresh ∅)) {[ "linkid" := VInt 0 ]}, Ok tt)
  /\ ValidationProcessor.process ideal (Main.validator (fresh ∅)) {[ "linkid" := VStr "1" ]}
     = (logged (Main.validator (fresh ∅)) {[ "linkid" := VStr "1" ]}, Ok tt).
Proof.
  intros data.
  split; [reflexivity|]. split; [reflexivity|]. split; [reflexivity|].
  split; vm_compute; reflexivity.
Qed.

(** The tests [test_ValidationProcessor_empty], [_correct] and
    [_incorrect]: what reaches the dead-letter sink. *)
Example test_ValidationProcessor :
  let sink data :=
    Jsonlines.written
      (ValidationProcessor.errors_logger
         (fst (ValidationProcessor.process ideal (Main.validator (fresh ∅)) data))) in
  sink {[ "boardid" := VStr "9a7c6e3a-0b38-4883-b21a-2daeb704b595" ]}
  = [ {[ "boardid" := VStr "9a7c6e3a-0b38-4883-b21a-2daeb704b595" ]} ]
  /\ sink {[ "linkid" := VStr "9a7c6e3a-0b38-4883-b21a-2daeb704b595" ]} = []
  /\ sink {[ "linkid" := VStr "incorrect-uuid-b21a-2daeb704b595" ]}
     = [ {[ "linkid" := VStr "incorrect-uuid-b21a-2daeb704b595" ]} ].
Proof. vm_compute. repeat split; reflexivity. Qed.

(* ===================================================================== *)
(** * The splitting stage *)
(* ===================================================================== *)

Lemma splitting_accepts_iff (self : SplittingProcessor.t) (data : gmap string value) :
  SplittingProcessor.accepts self data = Ok true
  <-> SplittingProcessor.strict_uuid self = false
      \/ (Py.truthy (get data "linkid") = true
          /\ exists u, Processor.is_valid_uuid (get data "linkid")
                       = Ok (Processor.Parsed u)).
Proof.
  unfold SplittingProcessor.accepts.
  destruct (SplittingProcessor.strict_uuid self); simpl.
  - destruct (Py.truthy (get data "linkid")) eqn:Ht; simpl.
    + rewrite (getitem_get _ _ Ht). simpl.
      destruct (Processor.is_valid_uuid (get data "linkid")) as [[u|]|e]; simpl.
      * split; [intros _; right; eauto | reflexivity].
      * split; [discriminate | intros [? | (_ & u & ?)]; discriminate].
      * split; [discriminate | intros [? | (_ & u & ?)]; discriminate].
    + split; [discriminate | intros [? | (? & _)]; discriminate].
  - split; [intros _; left; reflexivity | reflexivity].
Qed.

(** C7, amended.  For every record, every state of the processor and every
    environment:
    - if [type] is missing or falsy, [process] does nothing;
    - otherwise, if [strict_uuid] is false, or [linkid] is truthy and
      [is_valid_uuid] parses it, then
      -- when the cache holds a writer under the key of the [type], that
         writer is open and the record is one the sink accepts, the record
         is appended to that writer;
      -- when the cache holds no writer under that key, the sink for the
         [type] can be opened and the record is one the sink accepts, a
         writer is opened, receives the record and is in the cache
         afterwards;
      in both cases no other entry of the cache changes;
      -- when the [type] is an array or an object, the call raises
         [TypeError] and the processor is left as it was;
    - otherwise the processor is left as it was: nothing is written and
      no writer is created. *)
Theorem splitting_routes_by_type
    (env : Jsonlines.Env) (self : SplittingProcessor.t) (data : gmap string value) :
  let accepted :=
    SplittingProcessor.strict_uuid self = false
    \/ (Py.truthy (get data "linkid") = true
        /\ exists u, Processor.is_valid_uuid (get data "linkid")
                     = Ok (Processor.Parsed u)) in
  let cache := SplittingProcessor._cached_writers self in
  let path := Jsonlines.Format (SplittingProcessor.output_path self) (get data "type") in
  (Py.truthy (get data "type") = false ->
     SplittingProcessor.process env self data = (self, Ok tt))
  /\ (Py.truthy (get data "type") = true -> accepted ->
      (forall k w,
         Key.hash (get data "type") = Ok k ->
         cache !! k = Some w ->
         Jsonlines.closed w = false ->
         Jsonlines.appending env (Jsonlines.target w) data = Ok tt ->
         SplittingProcessor.process env self data
         = (SplittingProcessor.set_writers self
              (<[k := {| Jsonlines.target := Jsonlines.target w;
                         Jsonlines.written := Jsonlines.written w ++ [data];
                         Jsonlines.closed := false |}]> cache),
            Ok tt))
      /\ (forall k,
            Key.hash (get data "type") = Ok k ->
            cache !! k = None ->
            Jsonlines.opening env path = Ok tt ->
            Jsonlines.appending env path data = Ok tt ->
            SplittingProcessor.process env self data
            = (SplittingProcessor.set_writers self
                 (<[k := {| Jsonlines.target := path;
                            Jsonlines.written := [data];
                            Jsonlines.closed := false |}]> cache),
               Ok tt))
      /\ (forall e,
            Key.hash (get data "type") = Raise e ->
            e = TypeError
            /\ SplittingProcessor.process env self data = (self, Raise TypeError)))
  /\ (Py.truthy (get data "type") = true -> ~ accepted ->
        fst (SplittingProcessor.process env self data) = self).
Proof.
  intros accepted cache path. unfold SplittingProcessor.process.
  split; [intros ->; reflexivity|]. split.
  - intros Hty Hacc. rewrite Hty.
    apply splitting_accepts_iff in Hacc. rewrite Hacc.
    rewrite (getitem_get _ _ Hty).
    unfold SplittingProcessor.get_writer. split; [|split].
    + intros k w Hk Hw Hopen Happ. rewrite Hk. fold cache. rewrite Hw.
      unfold Jsonlines.write. rewrite Hopen, Happ. reflexivity.
    + intros k Hk Hw Hopens Happ. rewrite Hk. fold cache. rewrite Hw.
      unfold Jsonlines.open. fold path. rewrite Hopens.
      unfold Jsonlines.write. cbn [Jsonlines.closed Jsonlines.target].
      rewrite Happ. simpl. rewrite insert_insert_eq. reflexivity.
    + intros e He. rewrite He.
      destruct (get data "type"); try discriminate He;
        injection He as <-; split; reflexivity.
  - intros Hty Hrej. rewrite Hty.
    destruct (SplittingProcessor.accepts self data) as [[|]|e] eqn:Hacc;
      try reflexivity.
    exfalso. apply Hrej. apply splitting_accepts_iff. exact Hacc.
Qed.

Lemma splitting_routes_by_type_witness :
  let data : gmap string value :=
    <["type" := VStr "click"]>
      {[ "linkid" := VStr "9a7c6e3a-0b38-4883-b21a-2daeb704b595" ]} in
  SplittingProcessor.process ideal (SplittingProcessor.init "./{type}.json" true) data
  = ({| SplittingProcessor.output_path := "./{type}.json";
        SplittingProcessor._cached_writers :=
          {[ Key.KStr "click" :=
               {| Jsonlines.target := Jsonlines.Format "./{type}.json" (VStr "click");
                  Jsonlines.written := [data];
                  Jsonlines.closed := false |} ]};
        SplittingProcessor.strict_uuid := true |}, Ok tt).
Proof.
  intros data.
  destruct (splitting_routes_by_type ideal
              (SplittingProcessor.init "./{type}.json" true) data)
    as (_ & Hwrite & _).
  destruct Hwrite as (_ & Hnew & _).
  - reflexivity.
  - right. split; [reflexivity|]. eexists. vm_compute. reflexivity.
  - rewrite (Hnew (Key.KStr "click")); reflexivity.
Defined.

(** C7 as stated does not hold: a truthy [type] need not be hashable.  With
    [strict_uuid] off, the record [{"type": ["click"]}] is not written to
    any sink; looking its type up in the cache raises [TypeError]. *)
Lemma splitting_unhashable_type_raises :
  let self := SplittingProcessor.init "./{type}.json" false in
  let data : gmap string value := {[ "type" := VList [VStr "click"] ]} in
  Py.truthy (get data "type") = true
  /\ SplittingProcessor.strict_uuid self = false
  /\ SplittingProcessor.process ideal self data = (self, Raise TypeError)
  /\ SplittingProcessor._cached_writers
       (fst (SplittingProcessor.process ideal self data)) = ∅.
Proof.
  intros self data.
  split; [reflexivity|]. split; [reflexivity|]. split; reflexivity.
Qed.

(** The tests [test_SplittingProcessor_strict_uuid] and
    [test_SplittingProcessor_non_strict_uuid]. *)
Example test_SplittingProcessor_strict_uuid :
  SplittingProcessor._cached_writers
    (fst (SplittingProcessor.process ideal (SplittingProcessor.init "./{type}.json" true)
            (<["linkid" := VStr "incorrect-uuid-b21a-2daeb704b595"]>
               {[ "type" := VStr "click" ]})))
  !! Key.KStr "click" = None.
Proof. vm_compute. reflexivity. Qed.

Example test_SplittingProcessor_non_strict_uuid :
  is_Some
    (SplittingProcessor._cached_writers
       (fst (SplittingProcessor.process ideal (SplittingProcessor.init "./{type}.json" false)
               (<["linkid" := VStr "incorrect-uuid-b21a-2daeb704b595"]>
                  {[ "type" := VStr "click" ]})))
     !! Key.KStr "click").
Proof. vm_compute. eauto. Qed.

(* ===================================================================== *)
(** * The main loop *)
(* ===================================================================== *)




Lemma is_valid_uuid_ok_string (v : value) :
  is_ok (Processor.is_valid_uuid v) = true -> exists s, v = VStr s.
Proof. destruct v; try discriminate. eauto. Qed.

(** The creation of the processors succeeds exactly when the dead-letter
    sink opens, and then gives [fresh]. *)
Lemma create_result (env : Jsonlines.Env) (rates : gmap string value) :
  Main.create env rates
  = match Jsonlines.opening env (Jsonlines.Literal "./deadletters.json") with
    | Ok _ => Ok (fresh rates)
    | Raise e => Raise e
    end.
Proof.
  unfold Main.create, ValidationProcessor.init, Jsonlines.open.
  destruct (Jsonlines.opening env _) as [[]|e]; reflexivity.
Qed.

Lemma create_fresh (env : Jsonlines.Env) (rates : gmap string value)
    (ps : Main.processors) :
  Main.create env rates = Ok ps -> ps = fresh rates.
Proof.
  rewrite create_result. destruct (Jsonlines.opening env _); congruence.
Qed.

Lemma fresh_all_open (rates : gmap string value) : all_open (fresh rates).
Proof. split; [reflexivity|]. intros k w Hw. discriminate Hw. Qed.



Lemma splitting_accepts_strict (s s' : SplittingProcessor.t) (data : gmap string value) :
  SplittingProcessor.strict_uuid s' = SplittingProcessor.strict_uuid s ->
  SplittingProcessor.accepts s' data = SplittingProcessor.accepts s data.
Proof. unfold SplittingProcessor.accepts. intros ->. reflexivity. Qed.

Lemma raises_nothing_same (env : Jsonlines.Env) (ps ps' : Main.processors)
    (data : gmap string value) :
  Main.exchanger ps' = Main.exchanger ps ->
  SplittingProcessor.strict_uuid (Main.splitter ps')
  = SplittingProcessor.strict_uuid (Main.splitter ps) ->
  SplittingProcessor.output_path (Main.splitter ps')
  = SplittingProcessor.output_path (Main.splitter ps) ->
  raises_nothing env ps data -> raises_nothing env ps' data.
Proof.
  intros Hex Hstrict Hpath. unfold raises_nothing, sink_opens. rewrite Hex, Hpath.
  rewrite (splitting_accepts_strict _ _ _ Hstrict). exact (fun H => H).
Qed.





(** In the ideal environment the condition [raises_nothing] can be
    computed. *)
Lemma raises_nothing_ideal (ps : Main.processors) (data : gmap string value) :
  let data' := converted (Main.exchanger ps) data in
  is_ok (snd (ExchangeProcessor.process (Main.exchanger ps) data))
  && (negb (Py.truthy (get data' "linkid"))
      || is_ok (Processor.is_valid_uuid (get data' "linkid")))
  && (negb (Py.truthy (get data' "type"))
      || match SplittingProcessor.accepts (Main.splitter ps) data' with
         | Ok true => is_ok (Key.hash (get data' "type"))
         | _ => true
         end) = true ->
  raises_nothing ideal ps data.
Proof.
  intros data' H. apply andb_prop in H as [H Htype]. apply andb_prop in H as [Hr Hlink].
  unfold raises_nothing. fold data'. split; [|split; [|split]].
  - destruct (snd (ExchangeProcessor.process (Main.exchanger ps) data)) as [[]|];
      [reflexivity | discriminate].
  - intros Ht. rewrite Ht in Hlink. exact Hlink.
  - intros _ p. reflexivity.
  - intros Hty Hacc. rewrite Hty, Hacc in Htype.
    split; [exact Htype|]. split; [reflexivity|]. intros p. reflexivity.
Qed.



(** A sink that cannot be opened stops the run in the same way: the [type]
    of the record below holds a NUL character, which no file name may
    contain.  The record has reached the first two processors, the third
    one raises [ValueError], and nothing is closed. *)
Example run_aborts_on_unopenable_sink :
  let ps := fresh ∅ in
  let raw : gmap string value :=
    <["type" := VStr (String "000" "click")]>
      {[ "linkid" := VStr "9a7c6e3a-0b38-4883-b21a-2daeb704b595" ]} in
  Main.run_log no_nul ps [raw]
  = (ps, Raise ValueError,
     [Main.Process Main.Exchanger raw; Main.Process Main.Validator raw;
      Main.Process Main.Splitter raw]).
Proof. vm_compute. reflexivity. Qed.

(** A run of two records, the second of which goes to the dead letters. *)
Example run_two_records :
  let r1 : gmap string value :=
    <["convvalue" := VFloat f_2589_33]>
      (<["convvalueunit" := VStr "DKK"]>
         (<["type" := VStr "click"]>
            {[ "linkid" := VStr "9a7c6e3a-0b38-4883-b21a-2daeb704b595" ]})) in
  let r2 : gmap string value :=
    <["type" := VStr "click"]>
      {[ "linkid" := VStr "incorrect-uuid-b21a-2daeb704b595" ]} in
  let r1' := <["convusdvalue" := VFloat f_388_39]> r1 in
  Main.run ideal (fresh {[ "DKK" := VFloat f_0_15 ]}) [r1; r2]
  = ({| Main.exchanger := ExchangeProcessor.init {[ "DKK" := VFloat f_0_15 ]} "USD";
        Main.validator :=
          {| ValidationProcessor.errors_output := "./deadletters.json";
             ValidationProcessor.errors_logger :=
               {| Jsonlines.target := Jsonlines.Literal "./deadletters.json";
                  Jsonlines.written := [r2];
                  Jsonlines.closed := true |} |};
        Main.splitter :=
          {| SplittingProcessor.output_path := "./{type}.json";
             SplittingProcessor._cached_writers :=
               {[ Key.KStr "click" :=
                    {| Jsonlines.target := Jsonlines.Format "./{type}.json" (VStr "click");
                       Jsonlines.written := [r1'];
                       Jsonlines.closed := true |} ]};
             SplittingProcessor.strict_uuid := true |} |},
     Ok 2).
Proof. vm_compute. reflexivity. Qed.

(* ===================================================================== *)
(** * More about the currency conversion stage *)
(* ===================================================================== *)

Lemma append_nil_l (s : string) : String.append EmptyString s = s.
Proof. reflexivity. Qed.

Lemma lower_empty (s : string) : lower s = EmptyString -> s = EmptyString.
Proof. destruct s; [reflexivity | discriminate]. Qed.

(** The field name [conv<currency>value] is none of the fields the
    processors read, unless the currency is the empty string, in which case
    it is [convvalue]. *)
Lemma currency_key_fresh (rates : gmap string value) (currency : string) :
  let key := ExchangeProcessor.currency_key (ExchangeProcessor.init rates currency) in
  key <> "linkid" /\ key <> "type" /\ key <> "convvalueunit"
  /\ (currency <> EmptyString -> key <> "convvalue").
Proof.
  cbn [ExchangeProcessor.init ExchangeProcessor.currency_key].
  rewrite !append_cons, append_nil_l.
  split; [discriminate|]. split; [discriminate|]. split.
  - intros H. injection H as H.
    apply (f_equal String.length) in H as Hlen.
    rewrite length_append in Hlen. cbn [String.length] in Hlen.
    destruct (lower currency) as [|c1 [|c2 [|c3 [|c4 [|c5 x]]]]];
      cbn [String.length] in Hlen; try lia.
    rewrite !append_cons in H. discriminate H.
  - intros Hne H. injection H as H. apply Hne, lower_empty.
    apply (f_equal String.length) in H as Hlen.
    rewrite length_append in Hlen. cbn [String.length] in Hlen.
    destruct (lower currency); [reflexivity | cbn [String.length] in Hlen; lia].
Qed.

Lemma get_insert_ne (d : gmap string value) (k j : string) (v : value) :
  k <> j -> get (<[k := v]> d) j = get d j.
Proof. intros Hne. unfold get. rewrite lookup_insert_ne by exact Hne. reflexivity. Qed.

(** The currency stage writes to one field at most. *)
Lemma exchange_other_fields (self : ExchangeProcessor.t) (data : gmap string value)
    (k : string) :
  k <> ExchangeProcessor.currency_key self ->
  get (fst (ExchangeProcessor.process self data)) k = get data k.
Proof.
  intros Hk. unfold ExchangeProcessor.process.
  destruct (_ && _); [|reflexivity].
  destruct (bind _ _); [|reflexivity].
  simpl. apply get_insert_ne. congruence.
Qed.

(** X1.  The currency stage does not bear on what the later stages decide: for
    a processor built by [__init__], the converted record has the [linkid]
    and the [type] of the original, so it goes to the dead letters, and to
    a sink, exactly when the original would. *)
Theorem conversion_keeps_routing
    (rates : gmap string value) (currency : string)
    (s : SplittingProcessor.t) (data : gmap string value) :
  let data' := converted (ExchangeProcessor.init rates currency) data in
  get data' "linkid" = get data "linkid"
  /\ get data' "type" = get data "type"
  /\ dead_letter data' = dead_letter data
  /\ SplittingProcessor.accepts s data' = SplittingProcessor.accepts s data
  /\ forall k, routed_to s k data' = routed_to s k data.
Proof.
  intros data'.
  destruct (currency_key_fresh rates currency) as (Hl & Ht & _).
  assert (get data' "linkid" = get data "linkid") as Hlink
    by (apply exchange_other_fields; congruence).
  assert (get data' "type" = get data "type") as Htype
    by (apply exchange_other_fields; congruence).
  assert (SplittingProcessor.accepts s data' = SplittingProcessor.accepts s data) as Hacc.
  { unfold SplittingProcessor.accepts. rewrite Hlink.
    destruct (negb (SplittingProcessor.strict_uuid s)); [reflexivity|].
    destruct (Py.truthy (get data "linkid")) eqn:Htr; [|reflexivity].
    cbn [negb]. rewrite !getitem_get by congruence. rewrite Hlink. reflexivity. }
  split; [exact Hlink|]. split; [exact Htype|]. split; [|split; [exact Hacc|]].
  - unfold dead_letter. rewrite Hlink. reflexivity.
  - intros k. unfold routed_to. rewrite Htype, Hacc. reflexivity.
Qed.

(** X2.  For a currency other than the empty string, converting a record twice
    is the same as converting it once: the second call recomputes the same
    product from the untouched [convvalue] and [convvalueunit], or fails in
    the same way. *)
Theorem exchange_twice
    (rates : gmap string value) (currency : string) (data : gmap string value) :
  currency <> EmptyString ->
  let self := ExchangeProcessor.init rates currency in
  ExchangeProcessor.process self (fst (ExchangeProcessor.process self data))
  = ExchangeProcessor.process self data.
Proof.
  intros Hne self.
  destruct (currency_key_fresh rates currency) as (_ & _ & Hunit & Hvalue).
  specialize (Hvalue Hne). fold self in Hunit, Hvalue.
  destruct (Py.truthy (get data "convvalue")
            && ne_str (get data "convvalueunit")
                 (ExchangeProcessor.default_currency self)) eqn:Hguard.
  - destruct (bind (ExchangeProcessor.rate self data)
                (fun r => bind (getitem data "convvalue") (fun v => mul r v)))
      as [p|e] eqn:Hprod.
    + assert (ExchangeProcessor.process self data
              = (<[ExchangeProcessor.currency_key self := p]> data, Ok tt)) as Hr
        by (unfold ExchangeProcessor.process; rewrite Hguard, Hprod; reflexivity).
      rewrite Hr. cbn [fst].
      unfold ExchangeProcessor.process, ExchangeProcessor.rate, getitem.
      rewrite !get_insert_ne by congruence. rewrite Hguard.
      rewrite !lookup_insert_ne by congruence.
      unfold ExchangeProcessor.rate, getitem in Hprod. rewrite Hprod.
      rewrite insert_insert_eq. reflexivity.
    + assert (ExchangeProcessor.process self data = (data, Raise e)) as Hr
        by (unfold ExchangeProcessor.process; rewrite Hguard, Hprod; reflexivity).
      rewrite Hr. cbn [fst]. exact Hr.
  - assert (ExchangeProcessor.process self data = (data, Ok tt)) as Hr
      by (unfold ExchangeProcessor.process; rewrite Hguard; reflexivity).
    rewrite Hr. cbn [fst]. exact Hr.
Qed.

Lemma exchange_twice_witness :
  let self := ExchangeProcessor.init {[ "DKK" := VFloat f_0_15 ]} "USD" in
  let data : gmap string value :=
    <["convvalue" := VFloat f_2589_33]> {[ "convvalueunit" := VStr "DKK" ]} in
  ExchangeProcessor.process self (fst (ExchangeProcessor.process self data))
  = ExchangeProcessor.process self data.
Proof.
  intros self data. apply exchange_twice. discriminate.
Defined.

(** With the empty string as currency the field written is [convvalue]
    itself, and a second conversion multiplies once more. *)
Example exchange_twice_empty_currency :
  let self := ExchangeProcessor.init {[ "DKK" := VInt 2 ]} EmptyString in
  let data : gmap string value :=
    <["convvalue" := VInt 3]> {[ "convvalueunit" := VStr "DKK" ]} in
  fst (ExchangeProcessor.process self data) !! "convvalue" = Some (VInt 6)
  /\ fst (ExchangeProcessor.process self (fst (ExchangeProcessor.process self data)))
     !! "convvalue" = Some (VInt 12).
Proof. vm_compute. split; reflexivity. Qed.

(** X3.  The number stored does not depend on the target currency, which only
    names the field and decides which records are skipped: for two targets
    that both differ from the unit of the record, the two processors end in
    the same way and, when they store, store the same value. *)
Theorem exchange_ignores_target
    (rates : gmap string value) (c1 c2 : string) (data : gmap string value) :
  Py.truthy (get data "convvalue") = true ->
  ne_str (get data "convvalueunit") c1 = true ->
  ne_str (get data "convvalueunit") c2 = true ->
  let p1 := ExchangeProcessor.init rates c1 in
  let p2 := ExchangeProcessor.init rates c2 in
  snd (ExchangeProcessor.process p1 data) = snd (ExchangeProcessor.process p2 data)
  /\ (snd (ExchangeProcessor.process p1 data) = Ok tt ->
      is_Some (fst (ExchangeProcessor.process p1 data)
               !! ExchangeProcessor.currency_key p1)
      /\ fst (ExchangeProcessor.process p1 data) !! ExchangeProcessor.currency_key p1
         = fst (ExchangeProcessor.process p2 data) !! ExchangeProcessor.currency_key p2).
Proof.
  intros Hv H1 H2 p1 p2. subst p1 p2.
  unfold ExchangeProcessor.process, ExchangeProcessor.rate.
  cbn [ExchangeProcessor.init ExchangeProcessor.default_currency
       ExchangeProcessor.currency_key ExchangeProcessor.ex_rates].
  rewrite Hv, H1, H2. cbn [andb].
  destruct (bind (bind (getitem data "convvalueunit") (subscript rates))
              (fun r => bind (getitem data "convvalue") (fun v => mul r v)))
    as [p|e].
  - cbn [fst snd]. rewrite !lookup_insert_eq. eauto.
  - cbn [snd]. split; [reflexivity | discriminate].
Qed.

Lemma exchange_ignores_target_witness :
  let data : gmap string value :=
    <["convvalue" := VFloat f_2589_33]> {[ "convvalueunit" := VStr "DKK" ]} in
  fst (ExchangeProcessor.process
         (ExchangeProcessor.init {[ "DKK" := VFloat f_0_15 ]} "USD") data)
  !! "convusdvalue"
  = fst (ExchangeProcessor.process
           (ExchangeProcessor.init {[ "DKK" := VFloat f_0_15 ]} "JPY") data)
    !! "convjpyvalue".
Proof.
  intros data.
  destruct (exchange_ignores_target {[ "DKK" := VFloat f_0_15 ]} "USD" "JPY" data)
    as (_ & Hsame).
  - reflexivity.
  - reflexivity.
  - reflexivity.
  - apply Hsame. reflexivity.
Defined.

(* ===================================================================== *)
(** * What a run leaves in the sinks *)
(* ===================================================================== *)

(** One call of the validation stage, with its writer open, on a record
    whose truthy [linkid] is a string and which the sink accepts when it is
    bound for it. *)
Lemma validation_step (env : Jsonlines.Env) (v : ValidationProcessor.t)
    (data : gmap string value) :
  Jsonlines.closed (ValidationProcessor.errors_logger v) = false ->
  (Py.truthy (get data "linkid") = true ->
   is_ok (Processor.is_valid_uuid (get data "linkid")) = true) ->
  (dead_letter data = true ->
   Jsonlines.appending env (Jsonlines.target (ValidationProcessor.errors_logger v)) data
   = Ok tt) ->
  ValidationProcessor.process env v data
  = (if dead_letter data then logged v data else v, Ok tt).
Proof.
  intros Hopen Hshape Hwrite. unfold ValidationProcessor.process, logged.
  unfold dead_letter in *.
  unfold ValidationProcessor.log, Jsonlines.write. rewrite Hopen.
  destruct (Py.truthy (get data "linkid")) eqn:Ht; cbn [negb orb] in *.
  - rewrite (getitem_get _ _ Ht). cbn [bind]. specialize (Hshape eq_refl).
    destruct (Processor.is_valid_uuid (get data "linkid")) as [[u|]|e];
      [reflexivity | | discriminate].
    cbn [Processor.truthy negb]. rewrite (Hwrite eq_refl). reflexivity.
  - rewrite (Hwrite eq_refl). reflexivity.
Qed.

Lemma routed_to_strict (s s' : SplittingProcessor.t) (k : Key.t)
    (data : gmap string value) :
  SplittingProcessor.strict_uuid s' = SplittingProcessor.strict_uuid s ->
  routed_to s' k data = routed_to s k data.
Proof.
  intros Hstrict. unfold routed_to.
  rewrite (splitting_accepts_strict s s' data Hstrict). reflexivity.
Qed.

Lemma lines_at_insert (s : SplittingProcessor.t) (k0 k : Key.t) (w : Jsonlines.Writer) :
  lines_at (SplittingProcessor.set_writers s
              (<[k0 := w]> (SplittingProcessor._cached_writers s))) k
  = if bool_decide (k0 = k) then Jsonlines.written w else lines_at s k.
Proof.
  unfold lines_at. cbn [SplittingProcessor.set_writers SplittingProcessor._cached_writers].
  rewrite lookup_insert. destruct (decide (k0 = k)) as [Heq|Hne].
  - rewrite bool_decide_eq_true_2 by exact Heq. reflexivity.
  - rewrite bool_decide_eq_false_2 by exact Hne. reflexivity.
Qed.

(** One call of the splitting stage, with the cached writers open, on a
    record that raises nothing: the record is appended to the sink it is
    routed to, if any, and a sink is created only for that purpose. *)
Lemma splitting_step (env : Jsonlines.Env) (s : SplittingProcessor.t)
    (data : gmap string value) :
  (forall k w, SplittingProcessor._cached_writers s !! k = Some w ->
               Jsonlines.closed w = false) ->
  (Py.truthy (get data "linkid") = true ->
   is_ok (Processor.is_valid_uuid (get data "linkid")) = true) ->
  (Py.truthy (get data "type") = true ->
   SplittingProcessor.accepts s data = Ok true ->
   is_ok (Key.hash (get data "type")) = true
   /\ sink_opens env s data
   /\ writable env data) ->
  exists s',
    SplittingProcessor.process env s data = (s', Ok tt)
    /\ (forall k w, SplittingProcessor._cached_writers s' !! k = Some w ->
                    Jsonlines.closed w = false)
    /\ SplittingProcessor.strict_uuid s' = SplittingProcessor.strict_uuid s
    /\ SplittingProcessor.output_path s' = SplittingProcessor.output_path s
    /\ (forall k, lines_at s' k
                  = lines_at s k ++ (if routed_to s k data then [data] else []))
    /\ (forall k, SplittingProcessor._cached_writers s' !! k = None
                  <-> SplittingProcessor._cached_writers s !! k = None
                      /\ routed_to s k data = false).
Proof.
  intros Hopen Hlink Htype. unfold SplittingProcessor.process, routed_to.
  destruct (Py.truthy (get data "type")) eqn:Hty; cbn [negb orb andb] in *.
  2:{ exists s. split; [reflexivity|]. split; [exact Hopen|].
      split; [reflexivity|]. split; [reflexivity|].
      split; [intros k; rewrite app_nil_r; reflexivity | intros k; tauto]. }
  destruct (SplittingProcessor.accepts s data) as [[|]|e] eqn:Hacc.
  - destruct (Htype eq_refl eq_refl) as (Hhash & Hopens & Hwrite).
    rewrite (getitem_get _ _ Hty). unfold SplittingProcessor.get_writer.
    destruct (Key.hash (get data "type")) as [k0|]; [|discriminate].
    destruct (SplittingProcessor._cached_writers s !! k0) as [w|] eqn:Hw.
    + unfold Jsonlines.write. rewrite (Hopen k0 w Hw), (Hwrite _).
      eexists. split; [reflexivity|].
      split; [|split; [reflexivity|split; [reflexivity|split]]].
      * intros j wj. cbn [SplittingProcessor.set_writers SplittingProcessor._cached_writers].
        rewrite lookup_insert.
        destruct (decide (k0 = j)); [intros [= <-]; reflexivity | apply Hopen].
      * intros k. rewrite lines_at_insert. cbn [Jsonlines.written].
        destruct (bool_decide (k0 = k)) eqn:Hk.
        -- apply bool_decide_eq_true_1 in Hk as <-. unfold lines_at. rewrite Hw.
           reflexivity.
        -- rewrite app_nil_r. reflexivity.
      * intros k. cbn [SplittingProcessor.set_writers SplittingProcessor._cached_writers].
        rewrite lookup_insert. destruct (decide (k0 = k)) as [<-|Hne].
        -- rewrite bool_decide_eq_true_2 by reflexivity. rewrite Hw.
           split; [discriminate | intros [? _]; discriminate].
        -- rewrite bool_decide_eq_false_2 by exact Hne. tauto.
    + unfold Jsonlines.open. unfold sink_opens in Hopens. rewrite Hopens.
      unfold Jsonlines.write. cbn [Jsonlines.closed Jsonlines.target].
      rewrite (Hwrite _).
      cbn [Jsonlines.closed Jsonlines.target
           Jsonlines.written SplittingProcessor.set_writers
           SplittingProcessor._cached_writers SplittingProcessor.output_path
           SplittingProcessor.strict_uuid app].
      rewrite insert_insert_eq.
      eexists. split; [reflexivity|].
      split; [|split; [reflexivity|split; [reflexivity|split]]].
      * intros j wj. cbn [SplittingProcessor.set_writers SplittingProcessor._cached_writers].
        rewrite lookup_insert.
        destruct (decide (k0 = j)); [intros [= <-]; reflexivity | apply Hopen].
      * intros k. unfold lines_at at 1.
        cbn [SplittingProcessor.set_writers SplittingProcessor._cached_writers Jsonlines.written].
        rewrite lookup_insert. destruct (decide (k0 = k)) as [<-|Hne].
        -- rewrite bool_decide_eq_true_2 by reflexivity.
           unfold lines_at. rewrite Hw. reflexivity.
        -- rewrite bool_decide_eq_false_2 by exact Hne. rewrite app_nil_r.
           reflexivity.
      * intros k. cbn [SplittingProcessor.set_writers SplittingProcessor._cached_writers].
        rewrite lookup_insert. destruct (decide (k0 = k)) as [<-|Hne].
        -- rewrite bool_decide_eq_true_2 by reflexivity.
           split; [discriminate | intros [_ ?]; discriminate].
        -- rewrite bool_decide_eq_false_2 by exact Hne. tauto.
  - exists s. split; [reflexivity|]. split; [exact Hopen|].
    split; [reflexivity|]. split; [reflexivity|].
    split; [intros k; rewrite app_nil_r; reflexivity | intros k; tauto].
  - exfalso. unfold SplittingProcessor.accepts in Hacc.
    destruct (negb (SplittingProcessor.strict_uuid s)); [discriminate|].
    destruct (Py.truthy (get data "linkid")) eqn:Ht; cbn [negb orb] in *; [|discriminate].
    rewrite (getitem_get _ _ Ht) in Hacc. cbn [bind] in Hacc. specialize (Hlink eq_refl).
    destruct (Processor.is_valid_uuid (get data "linkid")); discriminate.
Qed.

(** The loop body on a record that raises nothing, with what it adds to
    the sinks. *)
Lemma record_effect (env : Jsonlines.Env) (ps : Main.processors)
    (data : gmap string value) :
  all_open ps ->
  raises_nothing env ps data ->
  let data' := converted (Main.exchanger ps) data in
  exists ps',
    Main.process_each env Main.pipelines ps data = (ps', data', Ok tt)
    /\ all_open ps'
    /\ Main.exchanger ps' = Main.exchanger ps
    /\ SplittingProcessor.strict_uuid (Main.splitter ps')
       = SplittingProcessor.strict_uuid (Main.splitter ps)
    /\ SplittingProcessor.output_path (Main.splitter ps')
       = SplittingProcessor.output_path (Main.splitter ps)
    /\ Jsonlines.written (ValidationProcessor.errors_logger (Main.validator ps'))
       = Jsonlines.written (ValidationProcessor.errors_logger (Main.validator ps))
         ++ (if dead_letter data' then [data'] else [])
    /\ (forall k, lines_at (Main.splitter ps') k
                  = lines_at (Main.splitter ps) k
                    ++ (if routed_to (Main.splitter ps) k data' then [data'] else []))
    /\ (forall k, SplittingProcessor._cached_writers (Main.splitter ps') !! k = None
                  <-> SplittingProcessor._cached_writers (Main.splitter ps) !! k = None
                      /\ routed_to (Main.splitter ps) k data' = false).
Proof.
  intros [Hlogger Hcache] Hok data'. unfold raises_nothing in Hok.
  fold data' in Hok. destruct Hok as (Hr & Hlink & Hdead & Htype).
  unfold Main.pipelines. cbn [Main.process_each Main.process].
  unfold data', converted in *.
  destruct (ExchangeProcessor.process (Main.exchanger ps) data) as [d r].
  cbn [fst snd] in *. subst r.
  rewrite (validation_step env (Main.validator ps) d Hlogger Hlink
             (fun H => Hdead H _)).
  cbn [Main.exchanger Main.validator Main.splitter].
  destruct (splitting_step env (Main.splitter ps) d Hcache Hlink Htype)
    as (s' & -> & Hopen' & Hstrict & Hpath & Hlines & Hdom).
  eexists. split; [reflexivity|].
  cbn [Main.exchanger Main.validator Main.splitter].
  split; [split; [destruct (dead_letter d); [reflexivity | exact Hlogger] | exact Hopen']|].
  split; [reflexivity|]. split; [exact Hstrict|]. split; [exact Hpath|].
  split; [|split; [exact Hlines | exact Hdom]].
  destruct (dead_letter d); [reflexivity | rewrite app_nil_r; reflexivity].
Qed.

Lemma closing_keeps_lines (ps : Main.processors) :
  exists ps',
    Main.close_each Main.pipelines ps = (ps', Ok tt)
    /\ all_closed ps'
    /\ Jsonlines.written (ValidationProcessor.errors_logger (Main.validator ps'))
       = Jsonlines.written (ValidationProcessor.errors_logger (Main.validator ps))
    /\ (forall k, lines_at (Main.splitter ps') k = lines_at (Main.splitter ps) k)
    /\ (forall k, SplittingProcessor._cached_writers (Main.splitter ps') !! k = None
                  <-> SplittingProcessor._cached_writers (Main.splitter ps) !! k = None).
Proof.
  unfold Main.pipelines. simpl. rewrite splitting_close_result.
  eexists. split; [reflexivity|].
  split; [split|split; [|split]]; simpl.
  - apply writer_close_closed.
  - intros k w. rewrite lookup_fmap.
    destruct (SplittingProcessor._cached_writers (Main.splitter ps) !! k);
      simpl; [|discriminate].
    intros [= <-]. apply writer_close_closed.
  - apply writer_close_closed.
  - intros k. unfold lines_at. simpl. rewrite lookup_fmap.
    destruct (SplittingProcessor._cached_writers (Main.splitter ps) !! k);
      simpl; [apply writer_close_closed | reflexivity].
  - intros k. rewrite lookup_fmap.
    destruct (SplittingProcessor._cached_writers (Main.splitter ps) !! k);
      simpl; split; congruence.
Qed.

Lemma loop_contents (env : Jsonlines.Env) (stream : list (gmap string value)) :
  forall (ps : Main.processors) (n : Z),
    all_open ps ->
    Forall (raises_nothing env ps) stream ->
    let out := map (converted (Main.exchanger ps)) stream in
    exists ps',
      Main.loop env Main.pipelines stream ps n
      = (ps', Ok (n + Z.of_nat (length stream)))
      /\ all_closed ps'
      /\ Jsonlines.written (ValidationProcessor.errors_logger (Main.validator ps'))
         = Jsonlines.written (ValidationProcessor.errors_logger (Main.validator ps))
           ++ List.filter dead_letter out
      /\ (forall k, lines_at (Main.splitter ps') k
                    = lines_at (Main.splitter ps) k
                      ++ List.filter (routed_to (Main.splitter ps) k) out)
      /\ (forall k, SplittingProcessor._cached_writers (Main.splitter ps') !! k = None
                    <-> SplittingProcessor._cached_writers (Main.splitter ps) !! k = None
                        /\ List.filter (routed_to (Main.splitter ps) k) out = []).
Proof.
  induction stream as [|raw stream IH]; intros ps n Hopen Hclean out.
  - destruct (closing_keeps_lines ps) as (ps' & Hclose & Hclosed & Hlog & Hlines & Hdom).
    exists ps'. cbn [Main.loop]. rewrite Hclose. cbn [bind length].
    split; [f_equal; f_equal; lia|]. split; [exact Hclosed|].
    unfold out. cbn [map List.filter].
    split; [rewrite app_nil_r; exact Hlog|].
    split; [intros k; rewrite app_nil_r; apply Hlines|].
    intros k. rewrite Hdom. tauto.
  - apply Forall_cons in Hclean as [Hraw Hrest].
    destruct (record_effect env ps raw Hopen Hraw)
      as (ps1 & Hstep & Hopen1 & Hex & Hstrict & Hpath & Hlog1 & Hlines1 & Hdom1).
    destruct (IH ps1 (n + 1) Hopen1) as (ps' & Hloop & Hclosed & Hlog & Hlines & Hdom).
    { eapply Forall_impl; [exact Hrest|]. intros d Hd.
      exact (raises_nothing_same env ps ps1 d Hex Hstrict Hpath Hd). }
    exists ps'. cbn [Main.loop]. rewrite Hstep, Hloop.
    split; [f_equal; f_equal; cbn [length]; lia|]. split; [exact Hclosed|].
    unfold out. cbn [map List.filter]. rewrite Hex in Hlog, Hlines, Hdom.
    split; [|split].
    + rewrite Hlog, Hlog1, <- app_assoc.
      destruct (dead_letter (converted (Main.exchanger ps) raw)); reflexivity.
    + intros k. rewrite Hlines, Hlines1, <- app_assoc. f_equal.
      rewrite (filter_ext _ _ (fun d => routed_to_strict _ _ k d Hstrict)).
      destruct (routed_to (Main.splitter ps) k (converted (Main.exchanger ps) raw));
        reflexivity.
    + intros k. rewrite Hdom, Hdom1.
      rewrite (filter_ext _ _ (fun d => routed_to_strict _ _ k d Hstrict)).
      destruct (routed_to (Main.splitter ps) k (converted (Main.exchanger ps) raw)).
      * split; [intros [[_ ?] _]; discriminate | intros [_ ?]; discriminate].
      * tauto.
Qed.

(** X4.  On a stream none of whose records makes a processor raise (each
    can be converted, has a [linkid] that is absent, falsy or a string, and,
    where a stage is to write it, a [type] that can be hashed, a sink that
    can be opened and a form the sink accepts), a run started with the sinks
    open adds to the dead letters exactly the converted records the
    validation stage diverts, and to the sink of each type exactly the
    converted records routed to it, each once and in the order of the
    stream; a sink exists afterwards only if it existed before or some
    record was routed to it. *)
Theorem run_fills_sinks (env : Jsonlines.Env)
    (ps : Main.processors) (stream : list (gmap string value)) :
  all_open ps ->
  Forall (raises_nothing env ps) stream ->
  let out := map (converted (Main.exchanger ps)) stream in
  let ps' := fst (Main.run env ps stream) in
  Jsonlines.written (ValidationProcessor.errors_logger (Main.validator ps'))
  = Jsonlines.written (ValidationProcessor.errors_logger (Main.validator ps))
    ++ List.filter dead_letter out
  /\ (forall k, lines_at (Main.splitter ps') k
                = lines_at (Main.splitter ps) k
                  ++ List.filter (routed_to (Main.splitter ps) k) out)
  /\ (forall k, SplittingProcessor._cached_writers (Main.splitter ps') !! k = None
                <-> SplittingProcessor._cached_writers (Main.splitter ps) !! k = None
                    /\ List.filter (routed_to (Main.splitter ps) k) out = []).
Proof.
  intros Hopen Hclean out ps'.
  destruct (loop_contents env stream ps 0 Hopen Hclean)
    as (ps1 & Hloop & _ & Hlog & Hlines & Hdom).
  unfold ps', Main.run. rewrite Hloop. cbn [fst].
  split; [exact Hlog|]. split; [exact Hlines | exact Hdom].
Qed.

Lemma run_fills_sinks_witness :
  let r1 : gmap string value :=
    <["type" := VStr "click"]>
      {[ "linkid" := VStr "9a7c6e3a-0b38-4883-b21a-2daeb704b595" ]} in
  let r2 : gmap string value :=
    <["type" := VStr "click"]>
      {[ "linkid" := VStr "incorrect-uuid-b21a-2daeb704b595" ]} in
  let ps' := fst (Main.run ideal (fresh ∅) [r1; r2; r1]) in
  Jsonlines.written (ValidationProcessor.errors_logger (Main.validator ps')) = [r2]
  /\ lines_at (Main.splitter ps') (Key.KStr "click") = [r1; r1].
Proof.
  intros r1 r2 ps'.
  destruct (run_fills_sinks ideal (fresh ∅) [r1; r2; r1]) as (Hdead & Hlines & _).
  - apply fresh_all_open.
  - repeat constructor; apply raises_nothing_ideal; vm_compute; reflexivity.
  - split.
    + fold ps' in Hdead. rewrite Hdead. vm_compute. reflexivity.
    + fold ps' in Hlines. rewrite Hlines. vm_compute. reflexivity.
Defined.

(** In strict mode a record with a hashable [type] is routed to the sink of
    its type exactly when it is no dead letter, and to no other sink. *)
Lemma routed_unless_dead (s : SplittingProcessor.t) (data : gmap string value)
    (k : Key.t) :
  SplittingProcessor.strict_uuid s = true ->
  (Py.truthy (get data "linkid") = true ->
   is_ok (Processor.is_valid_uuid (get data "linkid")) = true) ->
  Py.truthy (get data "type") = true ->
  Key.hash (get data "type") = Ok k ->
  routed_to s k data = negb (dead_letter data)
  /\ forall j, j <> k -> routed_to s j data = false.
Proof.
  intros Hstrict Hlink Hty Hk. unfold routed_to, dead_letter.
  rewrite Hty, Hk. unfold SplittingProcessor.accepts. rewrite Hstrict.
  cbn [negb andb].
  split.
  - rewrite bool_decide_eq_true_2 by reflexivity.
    destruct (Py.truthy (get data "linkid")) eqn:Ht; cbn [negb orb] in *;
      [|reflexivity].
    rewrite (getitem_get _ _ Ht). cbn [bind]. specialize (Hlink eq_refl).
    destruct (Processor.is_valid_uuid (get data "linkid")) as [[u|]|e];
      [reflexivity | reflexivity | discriminate].
  - intros j Hj. rewrite (bool_decide_eq_false_2 (k = j)) by congruence.
    apply andb_false_r.
Qed.

(** X5.  In strict mode the two stages split the records that have a type
    between them.  Take a record with a truthy, hashable [type] whose
    [linkid] is absent, falsy or a string, let the sinks be open, the sink
    of the type be one that can be opened and the record one the sinks
    accept.  Then both [process] methods return normally, and the record is
    appended either to the dead letters or to the sink of its type, never to
    both and never to neither; no other sink changes. *)
Theorem strict_mode_partition (env : Jsonlines.Env)
    (v : ValidationProcessor.t) (s : SplittingProcessor.t)
    (data : gmap string value) (k : Key.t) :
  SplittingProcessor.strict_uuid s = true ->
  Jsonlines.closed (ValidationProcessor.errors_logger v) = false ->
  (forall j w, SplittingProcessor._cached_writers s !! j = Some w ->
               Jsonlines.closed w = false) ->
  (Py.truthy (get data "linkid") = true ->
   is_ok (Processor.is_valid_uuid (get data "linkid")) = true) ->
  Py.truthy (get data "type") = true ->
  Key.hash (get data "type") = Ok k ->
  sink_opens env s data ->
  writable env data ->
  exists v' s',
    ValidationProcessor.process env v data = (v', Ok tt)
    /\ SplittingProcessor.process env s data = (s', Ok tt)
    /\ ((Jsonlines.written (ValidationProcessor.errors_logger v')
         = Jsonlines.written (ValidationProcessor.errors_logger v) ++ [data]
         /\ lines_at s' k = lines_at s k)
        \/ (Jsonlines.written (ValidationProcessor.errors_logger v')
            = Jsonlines.written (ValidationProcessor.errors_logger v)
            /\ lines_at s' k = lines_at s k ++ [data]))
    /\ forall j, j <> k -> lines_at s' j = lines_at s j.
Proof.
  intros Hstrict Hlogger Hcache Hlink Hty Hk Hopens Hwrite.
  destruct (routed_unless_dead s data k Hstrict Hlink Hty Hk) as [Hrouted Hother].
  rewrite (validation_step env v data Hlogger Hlink (fun _ => Hwrite _)).
  destruct (splitting_step env s data Hcache Hlink) as (s' & -> & _ & _ & _ & Hlines & _).
  { intros _ _. rewrite Hk. split; [reflexivity|]. split; assumption. }
  eexists. exists s'. split; [reflexivity|]. split; [reflexivity|]. split.
  - rewrite (Hlines k), Hrouted.
    destruct (dead_letter data); cbn [negb].
    + left. split; [reflexivity | apply app_nil_r].
    + right. split; reflexivity.
  - intros j Hj. rewrite (Hlines j), (Hother j Hj). apply app_nil_r.
Qed.

Lemma strict_mode_partition_witness :
  let data : gmap string value :=
    <["type" := VStr "click"]>
      {[ "linkid" := VStr "incorrect-uuid-b21a-2daeb704b595" ]} in
  exists v' s',
    ValidationProcessor.process ideal (Main.validator (fresh ∅)) data = (v', Ok tt)
    /\ SplittingProcessor.process ideal (Main.splitter (fresh ∅)) data = (s', Ok tt)
    /\ Jsonlines.written (ValidationProcessor.errors_logger v') = [data]
    /\ lines_at s' (Key.KStr "click") = [].
Proof.
  intros data.
  destruct (strict_mode_partition ideal (Main.validator (fresh ∅))
              (Main.splitter (fresh ∅)) data (Key.KStr "click"))
    as (v' & s' & Hv & Hs & Hsplit & _).
  - reflexivity.
  - reflexivity.
  - intros j w Hw. discriminate Hw.
  - intros _. reflexivity.
  - reflexivity.
  - reflexivity.
  - reflexivity.
  - intros p. reflexivity.
  - exists v', s'. split; [exact Hv|]. split; [exact Hs|].
    vm_compute in Hv. injection Hv as <-.
    vm_compute in Hs. injection Hs as <-.
    split; reflexivity.
Defined.

(* ===================================================================== *)
(** * How a run ends *)
(* ===================================================================== *)













(* ===================================================================== *)
(** * What the sinks can hold *)
(* ===================================================================== *)

(** A write leaves the lines as they are or adds the object. *)
Lemma write_appends (env : Jsonlines.Env) (w : Jsonlines.Writer)
    (obj : gmap string value) :
  fst (Jsonlines.write env w obj) = w
  \/ Jsonlines.written (fst (Jsonlines.write env w obj)) = Jsonlines.written w ++ [obj].
Proof.
  unfold Jsonlines.write. destruct (Jsonlines.closed w); [left; reflexivity|].
  destruct (Jsonlines.appending env (Jsonlines.target w) obj) as [[]|e];
    [right | left]; reflexivity.
Qed.

(** Whatever the record and the state of the writer, the validation stage
    either leaves the dead letters as they are or appends the record, and
    it appends only a record it diverts. *)
Lemma validation_writes_dead_letters (env : Jsonlines.Env)
    (v : ValidationProcessor.t) (data : gmap string value) :
  let v' := fst (ValidationProcessor.process env v data) in
  Jsonlines.written (ValidationProcessor.errors_logger v')
  = Jsonlines.written (ValidationProcessor.errors_logger v)
  \/ (Jsonlines.written (ValidationProcessor.errors_logger v')
      = Jsonlines.written (ValidationProcessor.errors_logger v) ++ [data]
      /\ dead_letter data = true).
Proof.
  assert (Jsonlines.written
            (ValidationProcessor.errors_logger (fst (ValidationProcessor.log env v data)))
          = Jsonlines.written (ValidationProcessor.errors_logger v)
          \/ Jsonlines.written
               (ValidationProcessor.errors_logger (fst (ValidationProcessor.log env v data)))
             = Jsonlines.written (ValidationProcessor.errors_logger v) ++ [data]) as Hlog.
  { unfold ValidationProcessor.log.
    pose proof (write_appends env (ValidationProcessor.errors_logger v) data) as Hw.
    destruct (Jsonlines.write env (ValidationProcessor.errors_logger v) data) as [w r].
    cbn [fst ValidationProcessor.errors_logger] in *.
    destruct Hw as [-> | Hw]; [left; reflexivity | right; exact Hw]. }
  unfold ValidationProcessor.process, dead_letter.
  destruct (Py.truthy (get data "linkid")) eqn:Ht; cbn [negb orb fst].
  - rewrite (getitem_get _ _ Ht). cbn [bind].
    destruct (Processor.is_valid_uuid (get data "linkid")) as [[u|]|e];
      cbn [Processor.truthy negb fst]; [left; reflexivity | | left; reflexivity].
    destruct Hlog as [Hlog | Hlog]; [left; exact Hlog | right; split; [exact Hlog|reflexivity]].
  - destruct Hlog as [Hlog | Hlog]; [left; exact Hlog | right; split; [exact Hlog|reflexivity]].
Qed.

(** Whatever the record and the state of the cache, the splitting stage
    keeps its settings, and each cached writer is either as before or
    holds, under the key the record is routed to, the lines that were there
    with or without the record as one more line. *)
Lemma splitting_writes_routed (env : Jsonlines.Env) (s : SplittingProcessor.t)
    (data : gmap string value) :
  let s' := fst (SplittingProcessor.process env s data) in
  SplittingProcessor.strict_uuid s' = SplittingProcessor.strict_uuid s
  /\ forall k w',
       SplittingProcessor._cached_writers s' !! k = Some w' ->
       SplittingProcessor._cached_writers s !! k = Some w'
       \/ (routed_to s k data = true
           /\ (Jsonlines.written w' = lines_at s k ++ [data]
               \/ Jsonlines.written w' = lines_at s k)).
Proof.
  unfold SplittingProcessor.process, routed_to.
  destruct (Py.truthy (get data "type")) eqn:Hty;
    [|split; [reflexivity | intros k w' Hw'; left; exact Hw']].
  destruct (SplittingProcessor.accepts s data) as [[|]|e];
    try (split; [reflexivity | intros k w' Hw'; left; exact Hw']).
  rewrite (getitem_get _ _ Hty). unfold SplittingProcessor.get_writer.
  destruct (Key.hash (get data "type")) as [k0|e];
    [|split; [reflexivity | intros k w' Hw'; left; exact Hw']].
  cbn [andb].
  destruct (SplittingProcessor._cached_writers s !! k0) as [w|] eqn:Hw.
  - pose proof (write_appends env w data) as Happ.
    destruct (Jsonlines.write env w data) as [w1 r]. cbn [fst] in *.
    split; [reflexivity|]. intros k w'.
    cbn [SplittingProcessor.set_writers SplittingProcessor._cached_writers].
    rewrite lookup_insert.
    destruct (decide (k0 = k)) as [<-|Hne]; [|eauto].
    intros [= <-]. destruct Happ as [-> | Happ]; [left; exact Hw|].
    right. rewrite bool_decide_eq_true_2 by reflexivity.
    split; [reflexivity|]. left. unfold lines_at. rewrite Hw. exact Happ.
  - unfold Jsonlines.open.
    destruct (Jsonlines.opening env _) as [[]|e];
      [|split; [reflexivity | intros k w' Hw'; left; exact Hw']].
    match goal with
    | |- context [Jsonlines.write env ?w0 data] =>
        pose proof (write_appends env w0 data) as Happ;
        destruct (Jsonlines.write env w0 data) as [w1 r]
    end.
    cbn [fst] in *. split; [reflexivity|]. intros k w'.
    cbn [SplittingProcessor.set_writers SplittingProcessor._cached_writers].
    rewrite insert_insert_eq, lookup_insert.
    destruct (decide (k0 = k)) as [<-|Hne]; [|eauto].
    intros [= <-]. right. rewrite bool_decide_eq_true_2 by reflexivity.
    split; [reflexivity|]. unfold lines_at. rewrite Hw.
    destruct Happ as [-> | Happ]; [right; reflexivity | left; exact Happ].
Qed.

Lemma sinks_sound_process (env : Jsonlines.Env) (p : Main.pipe) (ps : Main.processors)
    (data : gmap string value) :
  sinks_sound ps -> sinks_sound (fst (fst (Main.process env p ps data))).
Proof.
  intros [Hdead Hsinks]. destruct p; cbn [Main.process].
  - destruct (ExchangeProcessor.process (Main.exchanger ps) data).
    split; assumption.
  - pose proof (validation_writes_dead_letters env (Main.validator ps) data) as Hv.
    destruct (ValidationProcessor.process env (Main.validator ps) data) as [v r].
    cbn [fst] in *. split; [|exact Hsinks].
    cbn [Main.validator]. destruct Hv as [-> | [-> Hd]]; [exact Hdead|].
    apply Forall_app. split; [exact Hdead|]. constructor; [exact Hd | constructor].
  - pose proof (splitting_writes_routed env (Main.splitter ps) data) as [Hstrict Hs].
    destruct (SplittingProcessor.process env (Main.splitter ps) data) as [s r].
    cbn [fst] in *. split; [exact Hdead|]. cbn [Main.splitter].
    intros k w' Hw'.
    eapply Forall_impl;
      [|intros d Hd; rewrite (routed_to_strict _ _ k d Hstrict); exact Hd].
    assert (Forall (fun d => routed_to (Main.splitter ps) k d = true)
              (lines_at (Main.splitter ps) k)) as Hold.
    { unfold lines_at.
      destruct (SplittingProcessor._cached_writers (Main.splitter ps) !! k) as [w|] eqn:Hw;
        [exact (Hsinks k w Hw) | constructor]. }
    destruct (Hs k w' Hw') as [Hsame | [Hr [Hlines | Hlines]]];
      [exact (Hsinks k w' Hsame) | | rewrite Hlines; exact Hold].
    rewrite Hlines. apply Forall_app. split; [exact Hold|].
    constructor; [exact Hr | constructor].
Qed.

Lemma sinks_sound_close (p : Main.pipe) (ps : Main.processors) :
  sinks_sound ps -> sinks_sound (fst (Main.close p ps)).
Proof.
  intros [Hdead Hsinks]. destruct p; cbn [Main.close].
  - split; assumption.
  - split; [|exact Hsinks]. cbn [fst Main.validator ValidationProcessor.close
      ValidationProcessor.errors_logger].
    destruct (writer_close_closed
                (ValidationProcessor.errors_logger (Main.validator ps)))
      as (_ & -> & _).
    exact Hdead.
  - rewrite splitting_close_result. cbn [fst Main.validator Main.splitter].
    split; [exact Hdead|]. intros k w'. simpl. rewrite lookup_fmap.
    destruct (SplittingProcessor._cached_writers (Main.splitter ps) !! k) as [w|] eqn:Hw;
      simpl; [|discriminate].
    intros [= <-]. destruct (writer_close_closed w) as (_ & -> & _).
    exact (Hsinks k w Hw).
Qed.

Lemma reachable_strict (env : Jsonlines.Env) (rates : gmap string value)
    (ps : Main.processors) :
  reachable env rates ps ->
  SplittingProcessor.strict_uuid (Main.splitter ps) = true.
Proof.
  induction 1 as [ps Hcreate|p ps data _ IH|p ps _ IH].
  - apply create_fresh in Hcreate as ->. reflexivity.
  - destruct p; cbn [Main.process].
    + destruct (ExchangeProcessor.process (Main.exchanger ps) data). exact IH.
    + destruct (ValidationProcessor.process env (Main.validator ps) data). exact IH.
    + pose proof (splitting_writes_routed env (Main.splitter ps) data) as [Hstrict _].
      destruct (SplittingProcessor.process env (Main.splitter ps) data).
      cbn [fst Main.splitter] in *. congruence.
  - destruct p; cbn [Main.close]; try exact IH.
    rewrite splitting_close_result. exact IH.
Qed.

Lemma reachable_sound (env : Jsonlines.Env) (rates : gmap string value)
    (ps : Main.processors) :
  reachable env rates ps -> sinks_sound ps.
Proof.
  induction 1 as [ps Hcreate|p ps data _ IH|p ps _ IH].
  - apply create_fresh in Hcreate as ->.
    split; [constructor|]. intros k w Hw. discriminate Hw.
  - apply sinks_sound_process. exact IH.
  - apply sinks_sound_close. exact IH.
Qed.

(** X7.  However the three processors the script creates are used, calls that
    raise and calls after [close] included, and whatever the sinks answer,
    the sinks never hold a record that does not belong there: every dead
    letter has a [linkid] that is falsy or that [is_valid_uuid] rejects, and
    every line of the sink cached under a key is a record with a truthy
    [type] that hashes to that key and with a [linkid] that [is_valid_uuid]
    parses. *)
Theorem sinks_hold_only_their_records (env : Jsonlines.Env)
    (rates : gmap string value) (ps : Main.processors) :
  reachable env rates ps ->
  Forall (fun data => dead_letter data = true)
    (Jsonlines.written (ValidationProcessor.errors_logger (Main.validator ps)))
  /\ forall k w,
       SplittingProcessor._cached_writers (Main.splitter ps) !! k = Some w ->
       Forall (fun data =>
                 Py.truthy (get data "type") = true
                 /\ Key.hash (get data "type") = Ok k
                 /\ exists u, Processor.is_valid_uuid (get data "linkid")
                              = Ok (Processor.Parsed u))
         (Jsonlines.written w).
Proof.
  intros Hreach.
  destruct (reachable_sound env rates ps Hreach) as [Hdead Hsinks].
  pose proof (reachable_strict env rates ps Hreach) as Hstrict.
  split; [exact Hdead|]. intros k w Hw.
  eapply Forall_impl; [exact (Hsinks k w Hw)|].
  intros d Hd. cbn beta in Hd. unfold routed_to in Hd.
  apply andb_prop in Hd as [Hd Hk]. apply andb_prop in Hd as [Hty Hacc].
  split; [exact Hty|]. split.
  - destruct (Key.hash (get d "type")) as [k'|]; [|discriminate].
    apply bool_decide_eq_true_1 in Hk as ->. reflexivity.
  - destruct (SplittingProcessor.accepts (Main.splitter ps) d) as [[|]|] eqn:Ha;
      try discriminate.
    apply splitting_accepts_iff in Ha as [Hoff | [_ Hu]];
      [congruence | exact Hu].
Qed.

Lemma sinks_hold_only_their_records_witness :
  Forall (fun data => dead_letter data = true)
    (Jsonlines.written
       (ValidationProcessor.errors_logger
          (Main.validator
             (fst (fst (Main.process ideal Main.Validator (fresh ∅)
                          {[ "linkid" := VStr "incorrect-uuid-b21a-2daeb704b595" ]})))))).
Proof.
  refine (proj1 (sinks_hold_only_their_records ideal ∅ _ _)).
  apply reach_process. apply reach_create. reflexivity.
Defined.

(* ===================================================================== *)
(** * Closing twice, and calls after closing *)
(* ===================================================================== *)



(** X9.  After [close] the validation stage still accepts valid records, which
    it writes nowhere, but raises [RuntimeError] on every record it would
    divert; the dead letters stay as they were.  This holds whatever the
    sink would answer: a closed writer refuses before it asks. *)
Theorem validation_after_close (env : Jsonlines.Env)
    (v : ValidationProcessor.t) (data : gmap string value) :
  negb (Py.truthy (get data "linkid"))
  || is_ok (Processor.is_valid_uuid (get data "linkid")) = true ->
  let v' := ValidationProcessor.close v in
  ValidationProcessor.process env v' data
  = (v', if dead_letter data then Raise RuntimeError else Ok tt).
Proof.
  intros Hlink v'. unfold ValidationProcessor.process, ValidationProcessor.log,
    Jsonlines.write, dead_letter.
  assert (Jsonlines.closed (ValidationProcessor.errors_logger v') = true) as Hc
    by apply writer_close_closed.
  rewrite Hc.
  assert ({| ValidationProcessor.errors_output := ValidationProcessor.errors_output v';
             ValidationProcessor.errors_logger := ValidationProcessor.errors_logger v' |}
          = v') as Heta by (destruct v'; reflexivity).
  destruct (Py.truthy (get data "linkid")) eqn:Ht; cbn [negb orb] in *.
  - rewrite (getitem_get _ _ Ht). cbn [bind].
    destruct (Processor.is_valid_uuid (get data "linkid")) as [[u|]|e];
      cbn [Processor.truthy negb]; [reflexivity | rewrite Heta; reflexivity | discriminate].
  - rewrite Heta. reflexivity.
Qed.

Lemma validation_after_close_witness :
  let v' := ValidationProcessor.close (Main.validator (fresh ∅)) in
  ValidationProcessor.process ideal v' {[ "boardid" := VStr "x" ]}
  = (v', Raise RuntimeError).
Proof.
  intros v'. unfold v'.
  rewrite (validation_after_close ideal (Main.validator (fresh ∅))
             {[ "boardid" := VStr "x" ]}) by reflexivity.
  reflexivity.
Defined.

(** X10.  After [close] the splitting stage raises [RuntimeError] on a record
    routed to a sink that is in the cache, and changes nothing, whatever the
    sink would answer.  For a record routed to a key the cache does not
    have, it goes on as before [close]: when the sink for the [type] can be
    opened and accepts the record, a new sink is opened and receives the
    record; when the sink cannot be opened, the call raises what opening
    raised and changes nothing. *)
Theorem splitting_after_close (env : Jsonlines.Env)
    (s : SplittingProcessor.t) (data : gmap string value) (k : Key.t) :
  routed_to s k data = true ->
  let s' := fst (SplittingProcessor.close s) in
  let path := Jsonlines.Format (SplittingProcessor.output_path s) (get data "type") in
  (is_Some (SplittingProcessor._cached_writers s !! k) ->
   SplittingProcessor.process env s' data = (s', Raise RuntimeError))
  /\ (SplittingProcessor._cached_writers s !! k = None ->
      Jsonlines.opening env path = Ok tt ->
      Jsonlines.appending env path data = Ok tt ->
      SplittingProcessor.process env s' data
      = (SplittingProcessor.set_writers s'
           (<[k := {| Jsonlines.target := path;
                      Jsonlines.written := [data];
                      Jsonlines.closed := false |}]>
              (SplittingProcessor._cached_writers s')),
         Ok tt))
  /\ (forall e,
        SplittingProcessor._cached_writers s !! k = None ->
        Jsonlines.opening env path = Raise e ->
        SplittingProcessor.process env s' data = (s', Raise e)).
Proof.
  intros Hr s' path. unfold routed_to in Hr.
  apply andb_prop in Hr as [Hr Hk]. apply andb_prop in Hr as [Hty Hacc].
  destruct (Key.hash (get data "type")) as [k'|] eqn:Hhash; [|discriminate].
  apply bool_decide_eq_true_1 in Hk as ->.
  subst s'. rewrite splitting_close_result. cbn [fst].
  unfold SplittingProcessor.process. rewrite Hty.
  rewrite (splitting_accepts_strict s _ data) by reflexivity.
  destruct (SplittingProcessor.accepts s data) as [[|]|]; try discriminate.
  rewrite (getitem_get _ _ Hty). unfold SplittingProcessor.get_writer.
  rewrite Hhash.
  cbn [SplittingProcessor.set_writers SplittingProcessor._cached_writers
       SplittingProcessor.output_path].
  rewrite lookup_fmap. fold path. split; [|split].
  - intros [w Hw]. rewrite Hw. simpl. unfold Jsonlines.write.
    destruct (writer_close_closed w) as (-> & _).
    unfold SplittingProcessor.set_writers. simpl.
    rewrite insert_id by (rewrite lookup_fmap, Hw; reflexivity). reflexivity.
  - intros Hw Hopens Happ. rewrite Hw. cbn [fmap option_fmap option_map].
    unfold Jsonlines.open. rewrite Hopens.
    unfold Jsonlines.write. cbn [Jsonlines.closed Jsonlines.target]. rewrite Happ.
    unfold SplittingProcessor.set_writers. simpl.
    rewrite insert_insert_eq. reflexivity.
  - intros e Hw Hopens. rewrite Hw. cbn [fmap option_fmap option_map].
    unfold Jsonlines.open. rewrite Hopens. reflexivity.
Qed.

Lemma splitting_after_close_witness :
  let data : gmap string value := {[ "type" := VStr "click" ]} in
  let s := SplittingProcessor.init "./{type}.json" false in
  let s' := fst (SplittingProcessor.close
                   (fst (SplittingProcessor.process ideal s data))) in
  SplittingProcessor.process ideal s' data = (s', Raise RuntimeError).
Proof.
  intros data s s'.
  refine (proj1 (splitting_after_close ideal
                   (fst (SplittingProcessor.process ideal s data))
                   data (Key.KStr "click") _) _).
  - reflexivity.
  - vm_compute. eauto.
Defined.

(* ===================================================================== *)
(** * The writer cache *)
(* ===================================================================== *)

(** X11.  [get_writer] gets or creates: the writer it returns is in the cache
    under the key of the type; asking again returns the same writer and
    changes nothing; no other entry of the cache is touched, and none is
    ever removed. *)
Theorem get_writer_reuses (env : Jsonlines.Env)
    (s s' : SplittingProcessor.t) (writer_type : value) (k : Key.t)
    (w : Jsonlines.Writer) :
  SplittingProcessor.get_writer env s writer_type = (s', Ok (k, w)) ->
  Key.hash writer_type = Ok k
  /\ SplittingProcessor._cached_writers s' !! k = Some w
  /\ SplittingProcessor.get_writer env s' writer_type = (s', Ok (k, w))
  /\ (forall j, j <> k ->
        SplittingProcessor._cached_writers s' !! j
        = SplittingProcessor._cached_writers s !! j)
  /\ (forall w0, SplittingProcessor._cached_writers s !! k = Some w0 -> w = w0 /\ s' = s).
Proof.
  unfold SplittingProcessor.get_writer.
  destruct (Key.hash writer_type) as [k0|]; [|discriminate].
  destruct (SplittingProcessor._cached_writers s !! k0) as [w0|] eqn:Hw.
  - intros [= <- <- <-].
    split; [reflexivity|]. split; [exact Hw|]. split; [rewrite Hw; reflexivity|].
    split; [reflexivity|]. intros w1 Hw1. rewrite Hw in Hw1.
    injection Hw1 as <-. split; reflexivity.
  - destruct (Jsonlines.open env _) as [w1|e]; [|discriminate].
    intros [= <- <- <-]. simpl. rewrite lookup_insert_eq.
    split; [reflexivity|]. split; [reflexivity|]. split; [reflexivity|].
    split; [|intros w2 Hw2; congruence].
    intros j Hj. apply lookup_insert_ne. congruence.
Qed.

Lemma get_writer_reuses_witness :
  let s := SplittingProcessor.init "./{type}.json" true in
  let s' := fst (SplittingProcessor.get_writer ideal s (VStr "click")) in
  SplittingProcessor.get_writer ideal s' (VStr "click")
  = (s', Ok (Key.KStr "click",
             {| Jsonlines.target := Jsonlines.Format "./{type}.json" (VStr "click");
                Jsonlines.written := [];
                Jsonlines.closed := false |})).
Proof.
  intros s s'.
  destruct (get_writer_reuses ideal s s' (VStr "click") (Key.KStr "click")
              {| Jsonlines.target := Jsonlines.Format "./{type}.json" (VStr "click");
                 Jsonlines.written := [];
                 Jsonlines.closed := false |})
    as (_ & _ & Hagain & _).
  - reflexivity.
  - exact Hagain.
Defined.

(* ===================================================================== *)
(** * More about [is_valid_uuid] *)
(* ===================================================================== *)

(** X13.  A string of fewer than 32 characters is never a UUID:
    [is_valid_uuid] answers [False]; the validation stage, with its writer
    open and the record one the sink accepts, appends a record with such a
    [linkid] to the dead letters; and the splitting stage in strict mode
    returns without writing it anywhere. *)
Theorem short_linkid_is_invalid (s : string) :
  (String.length s < 32)%nat ->
  Processor.is_valid_uuid (VStr s) = Ok Processor.PyFalse
  /\ (forall (env : Jsonlines.Env) (v : ValidationProcessor.t)
             (data : gmap string value),
        data !! "linkid" = Some (VStr s) ->
        Jsonlines.closed (ValidationProcessor.errors_logger v) = false ->
        Jsonlines.appending env
          (Jsonlines.target (ValidationProcessor.errors_logger v)) data = Ok tt ->
        ValidationProcessor.process env v data = (logged v data, Ok tt))
  /\ (forall (env : Jsonlines.Env) (sp : SplittingProcessor.t)
             (data : gmap string value),
        data !! "linkid" = Some (VStr s) ->
        SplittingProcessor.strict_uuid sp = true ->
        SplittingProcessor.process env sp data = (sp, Ok tt)).
Proof.
  intros Hlen.
  assert (Processor.is_valid_uuid (VStr s) = Ok Processor.PyFalse) as Hfalse.
  { unfold Processor.is_valid_uuid. cbn [Uuid.new].
    rewrite (short_string_is_no_uuid s Hlen). reflexivity. }
  split; [exact Hfalse|]. split.
  - intros env v data Hl Hopen Happ.
    assert (dead_letter data = true) as Hdead.
    { unfold dead_letter. rewrite (get_lookup _ _ _ Hl), Hfalse. apply orb_true_r. }
    rewrite (validation_step env v data Hopen).
    + rewrite Hdead. reflexivity.
    + intros _. rewrite (get_lookup _ _ _ Hl), Hfalse. reflexivity.
    + intros _. exact Happ.
  - intros env sp data Hl Hstrict. unfold SplittingProcessor.process.
    destruct (Py.truthy (get data "type")); [|reflexivity].
    unfold SplittingProcessor.accepts. rewrite Hstrict. cbn [negb].
    rewrite (get_lookup _ _ _ Hl).
    destruct (Py.truthy (VStr s)); cbn [negb]; [|reflexivity].
    unfold getitem. rewrite Hl. cbn [bind]. rewrite Hfalse. reflexivity.
Qed.

Lemma short_linkid_is_invalid_witness :
  let data : gmap string value := {[ "linkid" := VStr "9a7c6e3a-0b38-4883" ]} in
  ValidationProcessor.process ideal (Main.validator (fresh ∅)) data
  = (logged (Main.validator (fresh ∅)) data, Ok tt).
Proof.
  intros data.
  destruct (short_linkid_is_invalid "9a7c6e3a-0b38-4883") as (_ & Hdivert & _).
  - cbn [String.length]. lia.
  - apply Hdivert; reflexivity.
Defined.

(** X12.  A [linkid] written as 8-4-4-4-12 hexadecimal digits, in either case,
    is a UUID for [is_valid_uuid], whose value is the number the 32 digits
    spell; a record with such a [linkid] never goes to the dead letters,
    and the splitting stage accepts it in strict mode too.  The validation
    stage returns on it without touching its sink, in whatever state the
    sink is. *)
Theorem canonical_linkid_is_valid
    (a b c d e : string) (s : SplittingProcessor.t) (data : gmap string value) :
  hex_group 8 a -> hex_group 4 b -> hex_group 4 c -> hex_group 4 d ->
  hex_group 12 e ->
  data !! "linkid" = Some (VStr (hyphenated a b c d e)) ->
  Processor.is_valid_uuid (VStr (hyphenated a b c d e))
  = Ok (Processor.Parsed
          (Uuid.MkUUID
             (hex_value 0 (String.append a (String.append b (String.append c
                             (String.append d e)))))))
  /\ dead_letter data = false
  /\ SplittingProcessor.accepts s data = Ok true
  /\ (forall (env : Jsonlines.Env) (v : ValidationProcessor.t),
        ValidationProcessor.process env v data = (v, Ok tt)).
Proof.
  intros Ha Hb Hc Hd He Hl.
  assert (Processor.is_valid_uuid (VStr (hyphenated a b c d e))
          = Ok (Processor.Parsed
                  (Uuid.MkUUID
                     (hex_value 0 (String.append a (String.append b (String.append c
                                     (String.append d e)))))))) as Hvalid.
  { unfold Processor.is_valid_uuid. cbn [Uuid.new].
    rewrite (hyphenated_uuid_parses a b c d e Ha Hb Hc Hd He). reflexivity. }
  assert (Py.truthy (VStr (hyphenated a b c d e)) = true) as Ht.
  { destruct Ha as [_ La]. unfold hyphenated.
    destruct a; [discriminate La | reflexivity]. }
  split; [exact Hvalid|]. split; [|split].
  - unfold dead_letter. rewrite (get_lookup _ _ _ Hl), Ht, Hvalid. reflexivity.
  - apply splitting_accepts_iff. right. rewrite (get_lookup _ _ _ Hl).
    split; [exact Ht | eauto].
  - intros env v. unfold ValidationProcessor.process.
    rewrite (get_lookup _ _ _ Hl), Ht. cbn [negb].
    unfold getitem. rewrite Hl. cbn [bind]. rewrite Hvalid. reflexivity.
Qed.

Lemma canonical_linkid_is_valid_witness :
  dead_letter {[ "linkid" := VStr "9A7C6E3A-0b38-4883-b21a-2daeb704b595" ]} = false.
Proof.
  refine (proj1 (proj2 (canonical_linkid_is_valid
                          "9A7C6E3A" "0b38" "4883" "b21a" "2daeb704b595"
                          (SplittingProcessor.init "./{type}.json" true)
                          {[ "linkid" := VStr "9A7C6E3A-0b38-4883-b21a-2daeb704b595" ]}
                          _ _ _ _ _ _)));
    first [split; reflexivity | reflexivity].
Defined.
